(** * GoTask_Management: the storage layer

    A shallow embedding of [internal/models] and [internal/storage]:
    the [Task] record, the file backend ([JSONStorage]) over a small model
    of the file system, the SQLite backend over a table of rows, the two
    GORM backends (PostgreSQL, MySQL), the MongoDB backend, and the factory
    ([NewStorage], [ValidateConfig]).

    Code outside the repository is kept at the level of the call the source
    makes and read at face value: [encoding/json] is an interface with a
    round-trip law, the [os] calls act on a map from paths to contents, an
    SQL statement, a GORM call or a MongoDB driver call is the table
    operation it names. *)

From Stdlib Require Import ZArith Ascii String.
From stdpp Require Import base option gmap list strings countable sorting pretty.

Local Open Scope string_scope.
Local Open Scope list_scope.
Local Open Scope Z_scope.

(** ** Values shared by every backend *)

(** [time.Time] as an instant in nanoseconds, [time.Duration] as a count of
    nanoseconds. *)
Definition Time := Z.
Definition Duration := Z.
Definition Second : Duration := 1000000000.

(** Go errors.  [Errorf] is an error built from a message alone
    ([fmt.Errorf] without [%w]); [Wrapf] is [fmt.Errorf("msg: %w", err)]. *)
Inductive error : Type :=
| Errorf (msg : string)
| Wrapf (msg : string) (cause : error)
| ErrNoRows            (* sql.ErrNoRows *)
| ErrRecordNotFound    (* gorm.ErrRecordNotFound *)
| ErrNoDocuments       (* mongo.ErrNoDocuments *)
| ErrNotExist          (* fs.ErrNotExist *)
| ErrPermission        (* fs.ErrPermission and other I/O failures *)
| ErrSyntax            (* json.Unmarshal on malformed content *)
| ErrUnsupportedValue  (* json.Marshal on a value it cannot encode *)
| ErrConstraint        (* primary-key or unique-index violation of the engine *)
| ErrClosed            (* sql: database is closed / client is disconnected *)
| ErrDeadlineExceeded. (* context.DeadlineExceeded *)

Global Instance error_eq_dec : EqDecision error.
Proof. solve_decision. Defined.

Inductive Result (A : Type) : Type :=
| Ok (a : A)
| Err (e : error).
Arguments Ok {A} a.
Arguments Err {A} e.

(** A call that acts on a state [S] (the file system, a database, a
    collection) and returns a value or an error; the state it leaves is
    returned in both cases. *)
Definition Eff (S A : Type) : Type := S → Result A * S.

Global Instance Eff_ret {S} : MRet (Eff S) := λ A a s, (Ok a, s).
Global Instance Eff_bind {S} : MBind (Eff S) := λ A B f m s,
  match m s with
  | (Ok a, s') => f a s'
  | (Err e, s') => (Err e, s')
  end.

Definition fail {S A} (e : error) : Eff S A := λ s, (Err e, s).

Definition lift {S A} (r : Result A) : Eff S A := λ s, (r, s).

(** [if err != nil { return fmt.Errorf("msg: %w", err) }] around a call. *)
Definition wrap {S A} (msg : string) (m : Eff S A) : Eff S A := λ s,
  match m s with
  | (Ok a, s') => (Ok a, s')
  | (Err e, s') => (Err (Wrapf msg e), s')
  end.

(** The text every backend but SQLite uses for a missing task, and the
    classification of an error as "not found". *)
Definition task_not_found : error := Errorf "task not found".

Definition IsNotFound (e : error) : bool :=
  bool_decide (e = task_not_found) || bool_decide (e = ErrNoRows).

Module models.

(** [models.Task]; [DueDate] is a [*time.Time], [None] is the nil pointer. *)
Record Task : Type := mkTask {
  ID : string;
  Title : string;
  Done : bool;
  CreatedAt : Time;
  DueDate : option Time
}.

Global Instance Task_eq_dec : EqDecision Task.
Proof. solve_decision. Defined.

Definition to_tuple (t : Task) : string * string * bool * Z * option Z :=
  (ID t, Title t, Done t, CreatedAt t, DueDate t).

Definition of_tuple (p : string * string * bool * Z * option Z) : Task :=
  let '(i, ti, d, c, du) := p in mkTask i ti d c du.

Global Instance Task_countable : Countable Task.
Proof. apply (inj_countable' to_tuple of_tuple). by intros []. Defined.

End models.
Import models.

(** The ids of a list of records, in order. *)
Definition ids (tasks : list Task) : list string := ID <$> tasks.

(** [has_id id t]: the comparison [t.ID == id] of the loops and the
    [WHERE id = ?] of the statements. *)
Definition has_id (id : string) (t : Task) : bool := bool_decide (ID t = id).

(** ** The file system seen by the file backend *)

Module os.

(** How a write to a path goes wrong, when it does: refused before
    anything is written, or interrupted with [written] left in the file. *)
Inductive WriteFault : Type :=
| WriteRefused
| WriteTorn (written : string).

(** [files] maps a path to the contents of the file there.  The three
    fault fields are the conditions of the environment: which paths cannot
    be read, what happens to a write, which renames are refused. *)
Record World : Type := mkWorld {
  files : gmap string string;
  read_fault : string → bool;
  write_fault : string → option WriteFault;
  rename_fault : string → string → bool
}.

Definition with_files (w : World) (fs : gmap string string) : World :=
  mkWorld fs (read_fault w) (write_fault w) (rename_fault w).

Abbreviation IO := (Eff World).

Definition Exists (path : string) : IO bool :=
  λ w, (Ok (bool_decide (is_Some (files w !! path))), w).

Definition ReadFile (path : string) : IO string := λ w,
  if read_fault w path then (Err ErrPermission, w)
  else match files w !! path with
       | Some data => (Ok data, w)
       | None => (Err ErrNotExist, w)
       end.

Definition WriteFile (path : string) (data : string) : IO unit := λ w,
  match write_fault w path with
  | None => (Ok (), with_files w (<[path := data]> (files w)))
  | Some WriteRefused => (Err ErrPermission, w)
  | Some (WriteTorn written) =>
      (Err ErrPermission, with_files w (<[path := written]> (files w)))
  end.

Definition Rename (oldpath newpath : string) : IO unit := λ w,
  match files w !! oldpath with
  | None => (Err ErrNotExist, w)
  | Some data =>
      if rename_fault w oldpath newpath then (Err ErrPermission, w)
      else (Ok (), with_files w (<[newpath := data]> (delete oldpath (files w))))
  end.

(** [os.Getenv] on the environment of the process: the value of the
    variable, the empty string when it is not set. *)
Definition Getenv (environ : gmap string string) (key : string) : string :=
  default "" (environ !! key).

End os.

(** ** [encoding/json] on a slice of tasks *)

(** [Marshal] is [json.MarshalIndent(tasks, "", "  ")], [Unmarshal] is
    [json.Unmarshal(data, &tasks)].  [exact t] says that JSON represents
    the record [t] without loss; decoding yields such records only, and
    they survive a round trip. *)
Class JSONCodec : Type := {
  Marshal : list Task → Result string;
  Unmarshal : string → Result (list Task);
  exact : Task → Prop;
  Unmarshal_exact : ∀ data tasks,
    Unmarshal data = Ok tasks → Forall exact tasks;
  Unmarshal_Marshal : ∀ tasks data,
    Forall exact tasks → Marshal tasks = Ok data → Unmarshal data = Ok tasks
}.

(** ** Calls into [strings], [strconv] and [time] *)

(** [TrimSpace] is [strings.TrimSpace], [Atoi] is [strconv.Atoi],
    [ParseDuration] is [time.ParseDuration] and [AddDate t years months days]
    is [t.AddDate(years, months, days)].  Of [ParseDuration] the development
    uses what it makes of the two defaults of the configuration loader. *)
Class GoLib : Type := {
  TrimSpace : string → string;
  Atoi : string → Result Z;
  ParseDuration : string → Result Duration;
  AddDate : Time → Z → Z → Z → Time;
  ParseDuration_10s : ParseDuration "10s" = Ok (10 * Second);
  ParseDuration_5s : ParseDuration "5s" = Ok (5 * Second)
}.

(** ** The file backend: [JSONStorage] *)

Module JSONStorage.
Import os.

(** The [JSONStorage] struct; the mutex has no sequential content. *)
Record t : Type := mk { filepath : string }.

(** [for i, t := range tasks { if t.ID == id { ... i ... } }]: the index
    of the first record with the id. *)
Fixpoint index_of (id : string) (tasks : list Task) : option nat :=
  match tasks with
  | [] => None
  | task :: rest =>
      if has_id id task then Some 0%nat else S <$> index_of id rest
  end.

(** The loop of [Delete]: [filtered] collects the records with another
    id, [found] records whether one with the id was seen. *)
Fixpoint delete_loop (id : string) (tasks filtered : list Task) (found : bool)
  : list Task * bool :=
  match tasks with
  | [] => (filtered, found)
  | task :: rest =>
      if negb (has_id id task) then delete_loop id rest (filtered ++ [task]) found
      else delete_loop id rest filtered true
  end.

(** The three mutating operations, the id each one targets and the list
    each one hands to [save], if it gets that far. *)
Inductive Mutation : Type :=
| MCreate (task : Task)
| MUpdate (task : Task)
| MDelete (id : string).

Definition target (m : Mutation) : string :=
  match m with
  | MCreate task | MUpdate task => ID task
  | MDelete id => id
  end.

Definition mutated (m : Mutation) (tasks : list Task) : option (list Task) :=
  match m with
  | MCreate task => Some (tasks ++ [task])
  | MUpdate task => i ← index_of (ID task) tasks; Some (<[i := task]> tasks)
  | MDelete id =>
      let '(filtered, found) := delete_loop id tasks [] false in
      if found then Some filtered else None
  end.

(** [tempFile := js.filepath + ".tmp"]. *)
Definition tempFile (js : t) : string := filepath js +:+ ".tmp".

Section WithCodec.
Context {codec : JSONCodec}.

Definition load (js : t) : IO (list Task) :=
  data ← ReadFile (filepath js);
  lift (Unmarshal data).

Definition save (js : t) (tasks : list Task) : IO unit :=
  data ← lift (Marshal tasks);
  WriteFile (tempFile js) data;;
  Rename (tempFile js) (filepath js).

Definition NewJSONStorage (filepath : string) : IO t :=
  let js := mk filepath in
  present ← Exists filepath;
  if present : bool then mret js
  else save js [];; mret js.

Definition Create (js : t) (task : Task) : IO unit :=
  tasks ← load js;
  save js (tasks ++ [task]).

Definition GetAll (js : t) : IO (list Task) := load js.

Definition GetByID (js : t) (id : string) : IO Task :=
  tasks ← load js;
  match find (has_id id) tasks with
  | Some task => mret task
  | None => fail task_not_found
  end.

Definition Update (js : t) (task : Task) : IO unit :=
  tasks ← load js;
  match index_of (ID task) tasks with
  | Some i => save js (<[i := task]> tasks)
  | None => fail task_not_found
  end.

Definition Delete (js : t) (id : string) : IO unit :=
  tasks ← load js;
  let '(filtered, found) := delete_loop id tasks [] false in
  if found then save js filtered
  else fail task_not_found.

Definition Close (js : t) : IO unit := mret ().

Definition mutate (js : t) (m : Mutation) : IO unit :=
  match m with
  | MCreate task => Create js task
  | MUpdate task => Update js task
  | MDelete id => Delete js id
  end.

(** The records a mutation brings in are ones JSON represents exactly. *)
Definition brings_exact (m : Mutation) : Prop :=
  match m with
  | MCreate task | MUpdate task => exact task
  | MDelete _ => True
  end.

End WithCodec.
End JSONStorage.

(** ** [database/sql] on the [tasks] table *)

Module sql.

(** The database behind a [*sql.DB]: the rows of [tasks] in the order the
    engine scans them (the order of insertion), whether the handle has been
    closed, and what the engine keeps of a bound [time.Time].  A row carries
    the five columns and is kept as a [Task]; [due_date] is the nullable
    one, NULL is [None]. *)
Record DB : Type := mkDB {
  rows : list Task;
  closed : bool;
  precision : Time → Time
}.

Definition with_rows (db : DB) (rs : list Task) : DB :=
  mkDB rs (closed db) (precision db).

(** The statements the backends issue.  [Exec] answers [RowsAffected]. *)
Inductive Stmt : Type :=
| Insert (id title : string) (done : bool) (created_at : Time) (due_date : option Time)
    (* INSERT INTO tasks (id, title, done, created_at, due_date) VALUES (?, ?, ?, ?, ?) *)
| UpdateSome (title : string) (done : bool) (due_date : option Time) (id : string)
    (* UPDATE tasks SET title = ?, done = ?, due_date = ? WHERE id = ? *)
| UpdateAll (title : string) (done : bool) (created_at : Time) (due_date : option Time)
    (id : string)
    (* UPDATE tasks SET title = ?, done = ?, created_at = ?, due_date = ? WHERE id = ? *)
| DeleteWhere (id : string)
    (* DELETE FROM tasks WHERE id = ? *)
| InsertOrUpdate (id title : string) (done : bool) (created_at : Time)
    (due_date : option Time).
    (* INSERT INTO tasks (id, title, done, created_at, due_date)
       VALUES (?, ?, ?, ?, ?) ON CONFLICT (id) DO UPDATE SET every column *)

Inductive Query : Type :=
| SelectAll
    (* SELECT id, title, done, created_at, due_date FROM tasks *)
| SelectOrdered
    (* SELECT * FROM tasks ORDER BY created_at DESC *)
| SelectWhere (id : string).
    (* SELECT id, title, done, created_at, due_date FROM tasks WHERE id = ? *)

(** [a] comes before [b] under [ORDER BY created_at DESC]. *)
Definition created_desc (a b : Task) : Prop := CreatedAt b ≤ CreatedAt a.

Global Instance created_desc_dec a b : Decision (created_desc a b).
Proof. unfold created_desc. apply _. Defined.

(** The rows a [WHERE id = ?] selects, and the others. *)
Definition matching (id : string) (rs : list Task) : list Task :=
  filter (λ r, has_id id r = true) rs.

Definition others (id : string) (rs : list Task) : list Task :=
  filter (λ r, has_id id r = false) rs.

(** A [SET] clause applied to the rows with the id. *)
Definition update_where (id : string) (set : Task → Task) (rs : list Task)
  : list Task :=
  (λ r, if has_id id r then set r else r) <$> rs.

Definition affected (id : string) (rs : list Task) : Z :=
  Z.of_nat (length (matching id rs)).

Definition Exec (q : Stmt) : Eff DB Z := λ db,
  if closed db then (Err ErrClosed, db)
  else match q with
       | Insert id title done created_at due_date =>
           if existsb (has_id id) (rows db) then (Err ErrConstraint, db)
           else
             let row := mkTask id title done (precision db created_at)
                               (precision db <$> due_date) in
             (Ok 1, with_rows db (rows db ++ [row]))
       | UpdateSome title done due_date id =>
           let set r := mkTask (ID r) title done (CreatedAt r)
                               (precision db <$> due_date) in
           (Ok (affected id (rows db)),
            with_rows db (update_where id set (rows db)))
       | UpdateAll title done created_at due_date id =>
           let set r := mkTask (ID r) title done (precision db created_at)
                               (precision db <$> due_date) in
           (Ok (affected id (rows db)),
            with_rows db (update_where id set (rows db)))
       | DeleteWhere id =>
           (Ok (affected id (rows db)), with_rows db (others id (rows db)))
       | InsertOrUpdate id title done created_at due_date =>
           let row := mkTask id title done (precision db created_at)
                             (precision db <$> due_date) in
           if existsb (has_id id) (rows db) then
             (Ok (affected id (rows db)),
              with_rows db (update_where id (λ _, row) (rows db)))
           else (Ok 1, with_rows db (rows db ++ [row]))
       end.

Definition Run (q : Query) : Eff DB (list Task) := λ db,
  if closed db then (Err ErrClosed, db)
  else match q with
       | SelectAll => (Ok (rows db), db)
       | SelectOrdered => (Ok (merge_sort created_desc (rows db)), db)
       | SelectWhere id => (Ok (matching id (rows db)), db)
       end.

Definition Close : Eff DB unit := λ db,
  (Ok (), mkDB (rows db) true (precision db)).

(** The WHERE clauses of the status and counting queries. *)
Inductive Cond : Type :=
| Always
    (* no WHERE clause *)
| DoneIs (done : bool).
    (* done = ? *)

Definition holds (c : Cond) (r : Task) : bool :=
  match c with
  | Always => true
  | DoneIs done => bool_decide (Done r = done)
  end.

Definition selected (c : Cond) (rs : list Task) : list Task :=
  filter (λ r, holds c r = true) rs.

(** [SELECT * FROM tasks WHERE c ORDER BY created_at DESC]. *)
Definition Select (c : Cond) : Eff DB (list Task) := λ db,
  if closed db then (Err ErrClosed, db)
  else (Ok (merge_sort created_desc (selected c (rows db))), db).

(** [SELECT count( * ) FROM tasks WHERE c]. *)
Definition Count (c : Cond) : Eff DB Z := λ db,
  if closed db then (Err ErrClosed, db)
  else (Ok (Z.of_nat (length (selected c (rows db)))), db).

(** [sqlDB.Ping()]. *)
Definition Ping : Eff DB unit := λ db,
  if closed db then (Err ErrClosed, db) else (Ok (), db).

End sql.

(** ** The SQLite backend: [SQLiteStorage] *)

Module SQLiteStorage.
Import sql.

Definition Create (task : Task) : Eff DB unit :=
  Exec (Insert (ID task) (Title task) (Done task) (CreatedAt task) (DueDate task));;
  mret ().

Definition GetAll : Eff DB (list Task) := Run SelectAll.

(** [row.Scan] on the first row of the result, [sql.ErrNoRows] when there
    is none. *)
Definition GetByID (id : string) : Eff DB Task :=
  found ← Run (SelectWhere id);
  match found with
  | task :: _ => mret task
  | [] => fail ErrNoRows
  end.

Definition Update (task : Task) : Eff DB unit :=
  n ← Exec (UpdateSome (Title task) (Done task) (DueDate task) (ID task));
  if n =? 0 then fail ErrNoRows else mret ().

Definition Delete (id : string) : Eff DB unit :=
  n ← Exec (DeleteWhere id);
  if n =? 0 then fail ErrNoRows else mret ().

Definition Close : Eff DB unit := sql.Close.

End SQLiteStorage.

(** ** GORM over the [tasks] table *)

Module gorm.
Import sql.

(** A [*gorm.DB]: the connection, and the clock GORM reads when it fills a
    timestamp. *)
Record DB : Type := mk {
  conn : sql.DB;
  now : Time
}.

(** The zero [time.Time], January 1 of year 1, in nanoseconds from the
    Unix epoch. *)
Definition zeroTime : Time := -62135596800000000000.

Definition with_conn (g : DB) (c : sql.DB) : DB := mk c (now g).

Definition on_conn {A} (m : Eff sql.DB A) : Eff DB A := λ g,
  let (r, c) := m (conn g) in (r, with_conn g c).

(** [db.Create(task)]: an INSERT of the five fields.  [CreatedAt] carries
    the tag [gorm:"autoCreateTime"]: a zero value is replaced by the
    current time. *)
Definition Create (task : Task) : Eff DB Z := λ g,
  let created_at :=
    if CreatedAt task =? zeroTime then now g else CreatedAt task in
  on_conn (Exec (Insert (ID task) (Title task) (Done task) created_at
                        (DueDate task))) g.

(** [db.Order("created_at DESC").Find(&tasks)]. *)
Definition FindOrdered : Eff DB (list Task) := on_conn (Run SelectOrdered).

(** [db.First(&task, "id = ?", id)]. *)
Definition First (id : string) : Eff DB Task :=
  found ← on_conn (Run (SelectWhere id));
  match found with
  | task :: _ => mret task
  | [] => fail ErrRecordNotFound
  end.

(** [db.Clauses(clause.OnConflict{UpdateAll: true}).Create(task)]: the
    INSERT of [Create] with ON CONFLICT DO UPDATE. *)
Definition CreateOnConflict (task : Task) : Eff DB Z := λ g,
  let created_at :=
    if CreatedAt task =? zeroTime then now g else CreatedAt task in
  on_conn (Exec (InsertOrUpdate (ID task) (Title task) (Done task) created_at
                                (DueDate task))) g.

(** [db.Save(task)].  With a zero primary key it is [Create].  Otherwise
    it is an UPDATE of every column of the row with that key, whose result
    counts the rows the statement matched; when that is none, [Save] goes
    on to insert the record, with ON CONFLICT DO UPDATE, and answers with
    the result of the insert. *)
Definition Save (task : Task) : Eff DB Z :=
  if bool_decide (ID task = "") then Create task
  else
    n ← on_conn (Exec (UpdateAll (Title task) (Done task) (CreatedAt task)
                                 (DueDate task) (ID task)));
    if n =? 0 then CreateOnConflict task else mret n.

(** [db.Delete(&models.Task{}, "id = ?", id)]. *)
Definition Delete (id : string) : Eff DB Z := on_conn (Exec (DeleteWhere id)).

Definition Close : Eff DB unit := on_conn sql.Close.

(** [db.Where(c).Order("created_at DESC").Find(&tasks)]. *)
Definition WhereFind (c : Cond) : Eff DB (list Task) := on_conn (Select c).

(** [db.Model(&models.Task{}).Where(c).Count(&count)]. *)
Definition Count (c : Cond) : Eff DB Z := on_conn (sql.Count c).

(** [db.DB()] followed by [sqlDB.Ping()]. *)
Definition Ping : Eff DB unit := on_conn sql.Ping.

End gorm.

(** [if err == gorm.ErrRecordNotFound { "task not found" } else wrap]. *)
Definition not_found_or_wrap {S A} (sentinel : error) (msg : string)
  (m : Eff S A) : Eff S A := λ s,
  match m s with
  | (Ok a, s') => (Ok a, s')
  | (Err e, s') =>
      if bool_decide (e = sentinel) then (Err task_not_found, s')
      else (Err (Wrapf msg e), s')
  end.

(** ** The PostgreSQL backend: [PostgreSQLStorage] *)

Module PostgreSQLStorage.

Record PostgreSQLConfig : Type := mkConfig {
  Host : string;
  Port : Z;
  User : string;
  Password : string;
  DBName : string;
  SSLMode : string;
  TimeZone : string
}.

Definition Create (task : Task) : Eff gorm.DB unit :=
  wrap "failed to create task" (gorm.Create task);; mret ().

Definition GetAll : Eff gorm.DB (list Task) :=
  wrap "failed to get all tasks" gorm.FindOrdered.

Definition GetByID (id : string) : Eff gorm.DB Task :=
  not_found_or_wrap ErrRecordNotFound "failed to get task by ID" (gorm.First id).

Definition Update (task : Task) : Eff gorm.DB unit :=
  n ← wrap "failed to update task" (gorm.Save task);
  if n =? 0 then fail task_not_found else mret ().

Definition Delete (id : string) : Eff gorm.DB unit :=
  n ← wrap "failed to delete task" (gorm.Delete id);
  if n =? 0 then fail task_not_found else mret ().

Definition Close : Eff gorm.DB unit := gorm.Close.

Definition GetTasksByStatus (done : bool) : Eff gorm.DB (list Task) :=
  wrap "failed to get tasks by status" (gorm.WhereFind (sql.DoneIs done)).

Definition GetTasksCount : Eff gorm.DB Z :=
  wrap "failed to count tasks" (gorm.Count sql.Always).

Definition GetTasksCountByStatus (done : bool) : Eff gorm.DB Z :=
  wrap "failed to count tasks by status" (gorm.Count (sql.DoneIs done)).

Definition HealthCheck : Eff gorm.DB unit := gorm.Ping.

End PostgreSQLStorage.

(** ** The MySQL backend: [MySQLStorage] *)

Module MySQLStorage.

Record MySQLConfig : Type := mkConfig {
  Host : string;
  Port : Z;
  User : string;
  Password : string;
  DBName : string;
  Charset : string;
  ParseTime : bool;
  Loc : string
}.

Definition Create (task : Task) : Eff gorm.DB unit :=
  wrap "failed to create task" (gorm.Create task);; mret ().

Definition GetAll : Eff gorm.DB (list Task) :=
  wrap "failed to get all tasks" gorm.FindOrdered.

Definition GetByID (id : string) : Eff gorm.DB Task :=
  not_found_or_wrap ErrRecordNotFound "failed to get task by ID" (gorm.First id).

Definition Update (task : Task) : Eff gorm.DB unit :=
  n ← wrap "failed to update task" (gorm.Save task);
  if n =? 0 then fail task_not_found else mret ().

Definition Delete (id : string) : Eff gorm.DB unit :=
  n ← wrap "failed to delete task" (gorm.Delete id);
  if n =? 0 then fail task_not_found else mret ().

Definition Close : Eff gorm.DB unit := gorm.Close.

Definition GetTasksByStatus (done : bool) : Eff gorm.DB (list Task) :=
  wrap "failed to get tasks by status" (gorm.WhereFind (sql.DoneIs done)).

Definition GetTasksCount : Eff gorm.DB Z :=
  wrap "failed to count tasks" (gorm.Count sql.Always).

Definition GetTasksCountByStatus (done : bool) : Eff gorm.DB Z :=
  wrap "failed to count tasks by status" (gorm.Count (sql.DoneIs done)).

Definition HealthCheck : Eff gorm.DB unit := gorm.Ping.

End MySQLStorage.

(** ** The MongoDB driver on the [tasks] collection *)

Module mongo.

(** The collection on the server: its documents in natural order (one per
    task, with the unique index on [id] that [createIndexes] declares), the
    time the server takes to answer a call, whether the client has been
    disconnected, and what a BSON date keeps of a [time.Time]. *)
Record Collection : Type := mkCollection {
  docs : list Task;
  latency : Duration;
  disconnected : bool;
  precision : Time → Time
}.

Definition with_docs (c : Collection) (ds : list Task) : Collection :=
  mkCollection ds (latency c) (disconnected c) (precision c).

(** A driver call under [ctx, cancel := context.WithTimeout(parent, d)]:
    it fails with the deadline error when the answer takes longer than
    [d]. *)
Definition refusal (timeout : Duration) (c : Collection) : option error :=
  if disconnected c then Some ErrClosed
  else if timeout <? latency c then Some ErrDeadlineExceeded
  else None.

Definition under (timeout : Duration) {A} (call : Eff Collection A)
  : Eff Collection A := λ c,
  match refusal timeout c with
  | Some e => (Err e, c)
  | None => call c
  end.

(** [$set] with the whole task on the first document with the id. *)
Fixpoint set_first (id : string) (doc : Task) (ds : list Task) : list Task :=
  match ds with
  | [] => []
  | d :: rest => if has_id id d then doc :: rest else d :: set_first id doc rest
  end.

Fixpoint remove_first (id : string) (ds : list Task) : list Task :=
  match ds with
  | [] => []
  | d :: rest => if has_id id d then rest else d :: remove_first id rest
  end.

Definition stored (c : Collection) (task : Task) : Task :=
  mkTask (ID task) (Title task) (Done task) (precision c (CreatedAt task))
         (precision c <$> DueDate task).

(** [collection.InsertOne(ctx, task)]. *)
Definition InsertOne (timeout : Duration) (task : Task) : Eff Collection unit :=
  under timeout (λ c,
    if existsb (has_id (ID task)) (docs c) then (Err ErrConstraint, c)
    else (Ok (), with_docs c (docs c ++ [stored c task]))).

(** The document of a task.  [models.Task] carries [json] and [gorm] tags
    and no [bson] tag, so the driver writes each field under its Go name in
    lower case: [id], [title], [done], [createdat], [duedate].  [date_at key
    d] is the date the document of [d] holds under [key]; [None] when it
    has no such field, or holds null there. *)
Definition date_at (key : string) (d : Task) : option Time :=
  if bool_decide (key = "createdat") then Some (CreatedAt d)
  else if bool_decide (key = "duedate") then DueDate d
  else None.

(** The order of two values under a sort key; a missing or null value is
    below every date. *)
Definition below (a b : option Time) : bool :=
  match a, b with
  | None, _ => true
  | Some _, None => false
  | Some x, Some y => x <=? y
  end.

(** [x] may stay in front of [d] under [SetSort({key: -1})]
    ([descending]) or [SetSort({key: 1})]. *)
Definition stays_before (key : string) (descending : bool) (x d : Task) : bool :=
  if descending then below (date_at key d) (date_at key x)
  else below (date_at key x) (date_at key d).

(** A sort of the documents by the value under [key].  The server
    promises no order among documents that compare equal; here they keep
    their natural order, so that a sort on a key no document has changes
    nothing. *)
Fixpoint insert_by (key : string) (descending : bool) (d : Task)
  (sorted : list Task) : list Task :=
  match sorted with
  | [] => [d]
  | x :: rest =>
      if stays_before key descending x d
      then x :: insert_by key descending d rest
      else d :: x :: rest
  end.

Definition sort_by (key : string) (descending : bool) (ds : list Task)
  : list Task :=
  foldl (λ sorted d, insert_by key descending d sorted) [] ds.

(** [collection.Find(ctx, bson.D{}, SetSort({created_at: -1}))] followed by
    [cursor.All]. *)
Definition FindSorted (timeout : Duration) : Eff Collection (list Task) :=
  under timeout (λ c, (Ok (sort_by "created_at" true (docs c)), c)).

(** [collection.FindOne(ctx, {id: id}).Decode(&task)]. *)
Definition FindOne (timeout : Duration) (id : string) : Eff Collection Task :=
  under timeout (λ c,
    match find (has_id id) (docs c) with
    | Some task => (Ok task, c)
    | None => (Err ErrNoDocuments, c)
    end).

(** [collection.UpdateOne(ctx, {id: id}, {$set: task})]; the result is
    [MatchedCount]. *)
Definition UpdateOne (timeout : Duration) (id : string) (task : Task)
  : Eff Collection Z :=
  under timeout (λ c,
    if existsb (has_id id) (docs c)
    then (Ok 1, with_docs c (set_first id (stored c task) (docs c)))
    else (Ok 0, c)).

(** [collection.DeleteOne(ctx, {id: id})]; the result is [DeletedCount]. *)
Definition DeleteOne (timeout : Duration) (id : string) : Eff Collection Z :=
  under timeout (λ c,
    if existsb (has_id id) (docs c)
    then (Ok 1, with_docs c (remove_first id (docs c)))
    else (Ok 0, c)).

(** [mongo.Connect(ctx, clientOptions)]. *)
Definition Connect (timeout : Duration) (uri : string) : Eff Collection unit :=
  under timeout (λ c, (Ok (), c)).

(** [client.Ping(ctx, nil)]. *)
Definition Ping (timeout : Duration) : Eff Collection unit :=
  under timeout (λ c, (Ok (), c)).

(** [collection.Indexes().CreateMany(ctx, indexes)]. *)
Definition CreateIndexes (timeout : Duration) : Eff Collection unit :=
  under timeout (λ c, (Ok (), c)).

Definition Disconnect : Eff Collection unit := λ c,
  (Ok (), mkCollection (docs c) (latency c) true (precision c)).

(** The filters of the status, due-date and counting queries.  A
    [time.Time] in a filter is encoded as a BSON date, like one in a
    document; a comparison and [$ne: nil] hold of a document only when it
    has a date under the key. *)
Inductive Filter : Type :=
| Everything
    (* bson.D{} *)
| DoneIs (done : bool)
    (* {done: done} *)
| DueLte (deadline : Time)
    (* {due_date: {$ne: nil}, due_date: {$lte: deadline}} *)
| DueLtUndone (now : Time).
    (* {due_date: {$ne: nil}, due_date: {$lt: now}, done: false} *)

Definition matches (c : Collection) (f : Filter) (d : Task) : bool :=
  match f with
  | Everything => true
  | DoneIs done => bool_decide (Done d = done)
  | DueLte deadline =>
      match date_at "due_date" d with
      | Some due => due <=? precision c deadline
      | None => false
      end
  | DueLtUndone now =>
      match date_at "due_date" d with
      | Some due => (due <? precision c now) && bool_decide (Done d = false)
      | None => false
      end
  end.

Definition found (c : Collection) (f : Filter) : list Task :=
  filter (λ d, matches c f d = true) (docs c).

(** [collection.Find(ctx, filter, SetSort({key: -1}))], or [{key: 1}],
    followed by [cursor.All]. *)
Definition Find (timeout : Duration) (f : Filter) (key : string)
  (descending : bool) : Eff Collection (list Task) :=
  under timeout (λ c, (Ok (sort_by key descending (found c f)), c)).

(** [collection.CountDocuments(ctx, filter)]. *)
Definition CountDocuments (timeout : Duration) (f : Filter) : Eff Collection Z :=
  under timeout (λ c, (Ok (Z.of_nat (length (found c f))), c)).

End mongo.

(** ** The MongoDB backend: [MongoDBStorage] *)

Module MongoDBStorage.

Record MongoDBConfig : Type := mkConfig {
  URI : string;
  Database : string;
  Collection : string;
  ConnectTimeout : Duration;
  QueryTimeout : Duration
}.

(** The [MongoDBStorage] struct: the handles on the client, the database
    and the collection, named here by what they were opened with, and
    [ctx], which is always [context.Background()]. *)
Record t : Type := mk {
  client : string;
  database : string;
  collection : string
}.

Definition createIndexes (ms : t) : Eff mongo.Collection unit :=
  mongo.CreateIndexes (10 * Second).

Definition NewMongoDBStorage (config : MongoDBConfig) : Eff mongo.Collection t :=
  wrap "failed to connect to MongoDB"
    (mongo.Connect (ConnectTimeout config) (URI config));;
  wrap "failed to ping MongoDB" (mongo.Ping (ConnectTimeout config));;
  let storage := mk (URI config) (Database config) (Collection config) in
  wrap "failed to create indexes" (createIndexes storage);;
  mret storage.

Definition Create (ms : t) (task : Task) : Eff mongo.Collection unit :=
  wrap "failed to create task" (mongo.InsertOne (5 * Second) task).

Definition GetAll (ms : t) : Eff mongo.Collection (list Task) :=
  wrap "failed to get all tasks" (mongo.FindSorted (10 * Second)).

Definition GetByID (ms : t) (id : string) : Eff mongo.Collection Task :=
  not_found_or_wrap ErrNoDocuments "failed to get task by ID"
    (mongo.FindOne (5 * Second) id).

Definition Update (ms : t) (task : Task) : Eff mongo.Collection unit :=
  n ← wrap "failed to update task" (mongo.UpdateOne (5 * Second) (ID task) task);
  if n =? 0 then fail task_not_found else mret ().

Definition Delete (ms : t) (id : string) : Eff mongo.Collection unit :=
  n ← wrap "failed to delete task" (mongo.DeleteOne (5 * Second) id);
  if n =? 0 then fail task_not_found else mret ().

Definition Close (ms : t) : Eff mongo.Collection unit := mongo.Disconnect.

Definition GetTasksByStatus (ms : t) (done : bool)
  : Eff mongo.Collection (list Task) :=
  wrap "failed to get tasks by status"
    (mongo.Find (10 * Second) (mongo.DoneIs done) "created_at" true).

Definition GetTasksDueBefore (ms : t) (deadline : Time)
  : Eff mongo.Collection (list Task) :=
  wrap "failed to get tasks due before deadline"
    (mongo.Find (10 * Second) (mongo.DueLte deadline) "due_date" false).

Definition GetTasksCount (ms : t) : Eff mongo.Collection Z :=
  wrap "failed to count tasks"
    (mongo.CountDocuments (5 * Second) mongo.Everything).

Definition GetTasksCountByStatus (ms : t) (done : bool) : Eff mongo.Collection Z :=
  wrap "failed to count tasks by status"
    (mongo.CountDocuments (5 * Second) (mongo.DoneIs done)).

(** [now] is what [time.Now()] reads. *)
Definition GetOverdueTasksCount (ms : t) (now : Time) : Eff mongo.Collection Z :=
  wrap "failed to count overdue tasks"
    (mongo.CountDocuments (5 * Second) (mongo.DueLtUndone now)).

Definition HealthCheck (ms : t) : Eff mongo.Collection unit :=
  mongo.Ping (5 * Second).

End MongoDBStorage.

(** ** The factory: [NewStorage], [ValidateConfig], and the caller in
    [cmd/server/main.go] *)

Module factory.

Definition StorageType := string.
Definition StorageTypeJSON : StorageType := "json".
Definition StorageTypeSQLite : StorageType := "sqlite".
Definition StorageTypePostgreSQL : StorageType := "postgres".
Definition StorageTypeMySQL : StorageType := "mysql".
Definition StorageTypeMongoDB : StorageType := "mongodb".

Record StorageConfig : Type := mkConfig {
  Type_ : StorageType;
  FilePath : string;
  Host : string;
  Port : Z;
  User : string;
  Password : string;
  DBName : string;
  SSLMode : string;
  TimeZone : string;
  Charset : string;
  ParseTime : bool;
  Loc : string;
  URI : string;
  Collection : string;
  ConnectTimeout : Duration;
  QueryTimeout : Duration
}.

(** The five constructors [NewStorage] hands the configuration to, over
    the world [W] they act on (files, network) and the storage values [S]
    they return. *)
Record Constructors (W S : Type) : Type := mkConstructors {
  NewJSONStorage : string → Eff W S;
  NewSQLiteStorage : string → Eff W S;
  NewPostgreSQLStorage : PostgreSQLStorage.PostgreSQLConfig → Eff W S;
  NewMySQLStorage : MySQLStorage.MySQLConfig → Eff W S;
  NewMongoDBStorage : MongoDBStorage.MongoDBConfig → Eff W S
}.
Arguments NewJSONStorage {W S}.
Arguments NewSQLiteStorage {W S}.
Arguments NewPostgreSQLStorage {W S}.
Arguments NewMySQLStorage {W S}.
Arguments NewMongoDBStorage {W S}.

Definition pgConfig (config : StorageConfig) : PostgreSQLStorage.PostgreSQLConfig :=
  PostgreSQLStorage.mkConfig (Host config) (Port config) (User config)
    (Password config) (DBName config) (SSLMode config) (TimeZone config).

Definition mysqlConfig (config : StorageConfig) : MySQLStorage.MySQLConfig :=
  MySQLStorage.mkConfig (Host config) (Port config) (User config)
    (Password config) (DBName config) (Charset config) (ParseTime config)
    (Loc config).

Definition mongoConfig (config : StorageConfig) : MongoDBStorage.MongoDBConfig :=
  MongoDBStorage.mkConfig (URI config) (DBName config) (Collection config)
    (ConnectTimeout config) (QueryTimeout config).

Definition unsupported (ty : StorageType) : error :=
  Errorf ("unsupported storage type: " +:+ ty).

Definition NewStorage {W S} (new : Constructors W S) (config : StorageConfig)
  : Eff W S :=
  if bool_decide (Type_ config = StorageTypeJSON) then
    NewJSONStorage new (FilePath config)
  else if bool_decide (Type_ config = StorageTypeSQLite) then
    NewSQLiteStorage new (FilePath config)
  else if bool_decide (Type_ config = StorageTypePostgreSQL) then
    NewPostgreSQLStorage new (pgConfig config)
  else if bool_decide (Type_ config = StorageTypeMySQL) then
    NewMySQLStorage new (mysqlConfig config)
  else if bool_decide (Type_ config = StorageTypeMongoDB) then
    NewMongoDBStorage new (mongoConfig config)
  else fail (unsupported (Type_ config)).

(** [ValidateConfig]; [None] is the nil error. *)
Definition ValidateConfig (config : StorageConfig) : option error :=
  if bool_decide (Type_ config = StorageTypeJSON)
     || bool_decide (Type_ config = StorageTypeSQLite) then
    if bool_decide (FilePath config = "") then
      Some (Errorf ("file path is required for " +:+ Type_ config +:+ " storage"))
    else None
  else if bool_decide (Type_ config = StorageTypePostgreSQL)
          || bool_decide (Type_ config = StorageTypeMySQL) then
    if bool_decide (Host config = "") then
      Some (Errorf ("host is required for " +:+ Type_ config +:+ " storage"))
    else if bool_decide (User config = "") then
      Some (Errorf ("user is required for " +:+ Type_ config +:+ " storage"))
    else if bool_decide (DBName config = "") then
      Some (Errorf ("database name is required for " +:+ Type_ config +:+ " storage"))
    else if Port config <=? 0 then
      Some (Errorf ("valid port is required for " +:+ Type_ config +:+ " storage"))
    else None
  else if bool_decide (Type_ config = StorageTypeMongoDB) then
    if bool_decide (URI config = "") then
      Some (Errorf "URI is required for MongoDB storage")
    else if bool_decide (DBName config = "") then
      Some (Errorf "database name is required for MongoDB storage")
    else if bool_decide (Collection config = "") then
      Some (Errorf "collection name is required for MongoDB storage")
    else None
  else Some (unsupported (Type_ config)).

(** [initializeStorage] of the server, from the configuration it has read:
    validate, then construct. *)
Definition initializeStorage {W S} (new : Constructors W S)
  (config : StorageConfig) : Eff W S :=
  match ValidateConfig config with
  | Some err => fail (Wrapf "invalid storage configuration" err)
  | None => wrap "failed to create storage" (NewStorage new config)
  end.

(** The factory fails fast on a configuration that does not validate:
    it answers with an error and has not touched the world. *)
Definition validates_before_constructing {W S} (new : Constructors W S)
  (config : StorageConfig) (w : W) : Prop :=
  ∀ err, ValidateConfig config = Some err →
    ∃ e, NewStorage new config w = (Err e, w).

(** The fields [ValidateConfig] requires of each kind of backend. *)
Definition required_fields_present (config : StorageConfig) : Prop :=
  ((Type_ config = StorageTypeJSON ∨ Type_ config = StorageTypeSQLite) ∧
   FilePath config ≠ "") ∨
  ((Type_ config = StorageTypePostgreSQL ∨ Type_ config = StorageTypeMySQL) ∧
   Host config ≠ "" ∧ User config ≠ "" ∧ DBName config ≠ "" ∧ 0 < Port config) ∨
  (Type_ config = StorageTypeMongoDB ∧
   URI config ≠ "" ∧ DBName config ≠ "" ∧ Collection config ≠ "").

Definition GetSupportedStorageTypes : list StorageType :=
  [StorageTypeJSON; StorageTypeSQLite; StorageTypePostgreSQL; StorageTypeMySQL;
   StorageTypeMongoDB].

Definition IsStorageTypeSupported (storageType : StorageType) : bool :=
  existsb (λ supported, bool_decide (supported = storageType))
    GetSupportedStorageTypes.

Section FromEnv.
Context {lib : GoLib} (environ : gmap string string).

Definition getEnvOrDefault (key defaultValue : string) : string :=
  let value := os.Getenv environ key in
  if bool_decide (value ≠ "") then value else defaultValue.

(** The port of the configuration: [DB_PORT] when it is set, the default
    of the storage type otherwise, zero for a type that has none. *)
Definition port_of (storageType : StorageType) : Result Z :=
  let portStr := os.Getenv environ "DB_PORT" in
  if bool_decide (portStr ≠ "") then
    match Atoi portStr with
    | Ok port => Ok port
    | Err err => Err (Wrapf "invalid DB_PORT" err)
    end
  else if bool_decide (storageType = StorageTypePostgreSQL) then Ok 5432
  else if bool_decide (storageType = StorageTypeMySQL) then Ok 3306
  else if bool_decide (storageType = StorageTypeMongoDB) then Ok 27017
  else Ok 0.

Definition LoadConfigFromEnv : Result StorageConfig :=
  let storageType := getEnvOrDefault "STORAGE_TYPE" "json" in
  let host := getEnvOrDefault "DB_HOST" "localhost" in
  match port_of storageType with
  | Err err => Err err
  | Ok port =>
      match ParseDuration (getEnvOrDefault "MONGODB_CONNECT_TIMEOUT" "10s") with
      | Err err => Err (Wrapf "invalid MONGODB_CONNECT_TIMEOUT" err)
      | Ok connectTimeout =>
          match ParseDuration (getEnvOrDefault "MONGODB_QUERY_TIMEOUT" "5s") with
          | Err err => Err (Wrapf "invalid MONGODB_QUERY_TIMEOUT" err)
          | Ok queryTimeout =>
              Ok {| Type_ := storageType;
                    FilePath := getEnvOrDefault "STORAGE_FILE_PATH" "tasks.json";
                    Host := host;
                    Port := port;
                    User := getEnvOrDefault "DB_USER" "";
                    Password := getEnvOrDefault "DB_PASSWORD" "";
                    DBName := getEnvOrDefault "DB_NAME" "gotask";
                    SSLMode := getEnvOrDefault "POSTGRES_SSL_MODE" "disable";
                    TimeZone := getEnvOrDefault "POSTGRES_TIMEZONE" "UTC";
                    Charset := getEnvOrDefault "MYSQL_CHARSET" "utf8mb4";
                    ParseTime :=
                      bool_decide (getEnvOrDefault "MYSQL_PARSE_TIME" "true" = "true");
                    Loc := getEnvOrDefault "MYSQL_LOC" "Local";
                    URI :=
                      getEnvOrDefault "MONGODB_URI"
                        ("mongodb://" +:+ host +:+ ":" +:+ pretty port);
                    Collection := getEnvOrDefault "MONGODB_COLLECTION" "tasks";
                    ConnectTimeout := connectTimeout;
                    QueryTimeout := queryTimeout |}
          end
      end
  end.

Definition NewStorageFromEnv {W S} (new : Constructors W S) : Eff W S :=
  match LoadConfigFromEnv with
  | Err err => fail (Wrapf "failed to load config from environment" err)
  | Ok config => NewStorage new config
  end.

End FromEnv.

End factory.

(** ** The [Storage] interface *)

Module storage.

(** A value of the interface: one of the five implementations, together
    with the state its methods act on. *)
Inductive Storage : Type :=
| JSON (js : JSONStorage.t) (w : os.World)
| SQLite (db : sql.DB)
| PostgreSQL (db : gorm.DB)
| MySQL (db : gorm.DB)
| MongoDB (ms : MongoDBStorage.t) (c : mongo.Collection).

(** A method of an implementation run through the interface. *)
Definition through {S A} (inj : S → Storage) (m : Eff S A) (s : S)
  : Result A * Storage :=
  let (r, s') := m s in (r, inj s').

Section WithCodec.
Context {codec : JSONCodec}.

Definition Create (task : Task) : Eff Storage unit := λ st,
  match st with
  | JSON js w => through (JSON js) (JSONStorage.Create js task) w
  | SQLite db => through SQLite (SQLiteStorage.Create task) db
  | PostgreSQL db => through PostgreSQL (PostgreSQLStorage.Create task) db
  | MySQL db => through MySQL (MySQLStorage.Create task) db
  | MongoDB ms c => through (MongoDB ms) (MongoDBStorage.Create ms task) c
  end.

Definition GetAll : Eff Storage (list Task) := λ st,
  match st with
  | JSON js w => through (JSON js) (JSONStorage.GetAll js) w
  | SQLite db => through SQLite SQLiteStorage.GetAll db
  | PostgreSQL db => through PostgreSQL PostgreSQLStorage.GetAll db
  | MySQL db => through MySQL MySQLStorage.GetAll db
  | MongoDB ms c => through (MongoDB ms) (MongoDBStorage.GetAll ms) c
  end.

Definition GetByID (id : string) : Eff Storage Task := λ st,
  match st with
  | JSON js w => through (JSON js) (JSONStorage.GetByID js id) w
  | SQLite db => through SQLite (SQLiteStorage.GetByID id) db
  | PostgreSQL db => through PostgreSQL (PostgreSQLStorage.GetByID id) db
  | MySQL db => through MySQL (MySQLStorage.GetByID id) db
  | MongoDB ms c => through (MongoDB ms) (MongoDBStorage.GetByID ms id) c
  end.

Definition Update (task : Task) : Eff Storage unit := λ st,
  match st with
  | JSON js w => through (JSON js) (JSONStorage.Update js task) w
  | SQLite db => through SQLite (SQLiteStorage.Update task) db
  | PostgreSQL db => through PostgreSQL (PostgreSQLStorage.Update task) db
  | MySQL db => through MySQL (MySQLStorage.Update task) db
  | MongoDB ms c => through (MongoDB ms) (MongoDBStorage.Update ms task) c
  end.

Definition Delete (id : string) : Eff Storage unit := λ st,
  match st with
  | JSON js w => through (JSON js) (JSONStorage.Delete js id) w
  | SQLite db => through SQLite (SQLiteStorage.Delete id) db
  | PostgreSQL db => through PostgreSQL (PostgreSQLStorage.Delete id) db
  | MySQL db => through MySQL (MySQLStorage.Delete id) db
  | MongoDB ms c => through (MongoDB ms) (MongoDBStorage.Delete ms id) c
  end.

Definition Close : Eff Storage unit := λ st,
  match st with
  | JSON js w => through (JSON js) (JSONStorage.Close js) w
  | SQLite db => through SQLite SQLiteStorage.Close db
  | PostgreSQL db => through PostgreSQL PostgreSQLStorage.Close db
  | MySQL db => through MySQL MySQLStorage.Close db
  | MongoDB ms c => through (MongoDB ms) (MongoDBStorage.Close ms) c
  end.


(** What a backend keeps of the timestamps of a record it is given. *)
Definition precision (st : Storage) : Time → Time :=
  match st with
  | JSON _ _ => λ t, t
  | SQLite db => sql.precision db
  | PostgreSQL db | MySQL db => sql.precision (gorm.conn db)
  | MongoDB _ c => mongo.precision c
  end.

Definition kept (st : Storage) (task : Task) : Task :=
  mkTask (ID task) (Title task) (Done task) (precision st (CreatedAt task))
         (precision st <$> DueDate task).

(** The records a backend stores as they are given: for the file backend
    those JSON represents exactly, for the GORM backends those whose
    [CreatedAt] is set. *)
Definition valid (st : Storage) (task : Task) : Prop :=
  match st with
  | JSON _ _ => exact task
  | PostgreSQL _ | MySQL _ => CreatedAt task ≠ gorm.zeroTime
  | SQLite _ | MongoDB _ _ => True
  end.

(** [GetByID id] answers with a not-found error: nothing is stored under
    [id]. *)
Definition absent (id : string) (st : Storage) : Prop :=
  ∃ e, GetByID id st = (Err e, st) ∧ IsNotFound e = true.



Definition is_file (st : Storage) : bool :=
  match st with
  | JSON _ _ => true
  | _ => false
  end.




(** The unique index on [id] of the collection holds. *)
Definition indexed (st : Storage) : Prop :=
  match st with
  | MongoDB _ c => NoDup (ids (mongo.docs c))
  | _ => True
  end.



(** The three mutating operations of the interface. *)
Inductive Op : Type :=
| OpCreate (task : Task)
| OpUpdate (task : Task)
| OpDelete (id : string).


(** *** Statements about the interface *)




(** *** Reading back after [Update], health checks *)

(** The record [GetByID] answers with after a successful [Update t] of a
    stored record [old]: [t] at the precision of the backend, except on
    SQLite, where [created_at] stays what the row holds. *)
Definition updated (st : Storage) (old t : Task) : Task :=
  match st with
  | SQLite db =>
      mkTask (ID t) (Title t) (Done t) (CreatedAt old)
             (sql.precision db <$> DueDate t)
  | _ => kept st t
  end.

(** A record as the backend holds it: storing its timestamps again keeps
    them. *)
Definition at_precision (st : Storage) (task : Task) : Prop :=
  precision st (CreatedAt task) = CreatedAt task ∧
  precision st <$> DueDate task = DueDate task.

(** The id an operation targets, and the records it brings in. *)
Definition target (op : Op) : string :=
  match op with
  | OpCreate task | OpUpdate task => ID task
  | OpDelete id => id
  end.

(** The records a backend can take: the file backend those JSON represents
    exactly, a database backend any. *)
Definition encodable (st : Storage) (task : Task) : Prop :=
  match st with
  | JSON _ _ => exact task
  | _ => True
  end.

Definition brings_encodable (st : Storage) (op : Op) : Prop :=
  match op with
  | OpCreate task | OpUpdate task => encodable st task
  | OpDelete _ => True
  end.

(** The store answers a lookup by id: the file can be read, the handle is
    open, the server answers within the five seconds [GetByID] allows. *)
Definition answering (st : Storage) : Prop :=
  match st with
  | JSON js w => os.read_fault w (JSONStorage.filepath js) = false
  | SQLite db => sql.closed db = false
  | PostgreSQL db | MySQL db => sql.closed (gorm.conn db) = false
  | MongoDB _ c => mongo.refusal (5 * Second) c = None
  end.

(** [store.(interface{ HealthCheck() error })]: the PostgreSQL, MySQL and
    MongoDB implementations have the method, the file and SQLite ones do
    not. *)
Definition healthChecker (st : Storage) : option (Result unit * Storage) :=
  match st with
  | JSON _ _ | SQLite _ => None
  | PostgreSQL db => Some (through PostgreSQL PostgreSQLStorage.HealthCheck db)
  | MySQL db => Some (through MySQL MySQLStorage.HealthCheck db)
  | MongoDB ms c => Some (through (MongoDB ms) (MongoDBStorage.HealthCheck ms) c)
  end.

(** [performStorageHealthCheck] of the server. *)
Definition performStorageHealthCheck : Eff Storage unit := λ st,
  match healthChecker st with
  | Some (Err err, st') => (Err (Wrapf "storage health check failed" err), st')
  | Some (Ok _, st') => (Ok (), st')
  | None => (Ok (), st)
  end.

End WithCodec.
End storage.

(** ** The task service: [task.Service] *)

Module task.
Import storage.

(** What a [Service] runs on: the storage it was built with and the clock
    of the machine.  [time.Now()] answers [clock reads] and the next call
    reads the next value. *)
Record World : Type := mkWorld {
  store : Storage;
  clock : nat → Time;
  reads : nat
}.

Definition Now : Eff World Time := λ w,
  (Ok (clock w (reads w)), mkWorld (store w) (clock w) (S (reads w))).

(** A method of [s.storage]. *)
Definition on_store {A} (m : Eff Storage A) : Eff World A := λ w,
  let (r, st) := m (store w) in (r, mkWorld st (clock w) (reads w)).

(** [fmt.Sprintf("task_%d", time.Now().UnixNano())]. *)
Definition generateID : Eff World string :=
  now ← Now;
  mret ("task_" +:+ pretty now).

(** The task behind the pointer handed to [storage.Create], once the call
    has returned: GORM fills a zero [CreatedAt] in place. *)
Definition filled (st : Storage) (task : Task) : Task :=
  match st with
  | PostgreSQL db | MySQL db =>
      if CreatedAt task =? gorm.zeroTime
      then mkTask (ID task) (Title task) (Done task) (gorm.now db) (DueDate task)
      else task
  | _ => task
  end.

(** The loop of [ListTasks]. *)
Definition by_status (status : string) (tasks : list Task) : list Task :=
  foldl (λ filtered task,
           if bool_decide (status = "done") && Done task
              || bool_decide (status = "undone") && negb (Done task)
           then filtered ++ [task] else filtered)
        [] tasks.

(** The loop of [GetDueTasks]; [!task.DueDate.After(deadline)]. *)
Definition due_by (deadline : Time) (tasks : list Task) : list Task :=
  foldl (λ dueTasks task,
           match DueDate task with
           | Some due =>
               if negb (deadline <? due) then dueTasks ++ [task] else dueTasks
           | None => dueTasks
           end)
        [] tasks.

(** The loop of [GetTasksSummary]: the counters [done] and [overdue]. *)
Definition tally (now : Time) (tasks : list Task) : Z * Z :=
  foldl (λ '(done, overdue) task,
           let done := if Done task then done + 1 else done in
           let overdue :=
             match DueDate task with
             | Some due =>
                 if (due <? now) && negb (Done task) then overdue + 1 else overdue
             | None => overdue
             end in
           (done, overdue))
        (0, 0) tasks.

(** A task is due by [deadline]: it has a due date, not after it.  A task
    is overdue at [now]: it is not done and has a due date before it. *)
Definition due_within (deadline : Time) (t : Task) : Prop :=
  ∃ due, DueDate t = Some due ∧ due ≤ deadline.

Global Instance due_within_dec deadline t : Decision (due_within deadline t).
Proof.
  unfold due_within. destruct (DueDate t) as [due|].
  - destruct (decide (due ≤ deadline)); [left; eauto|right].
    by intros (? & [= <-] & ?).
  - right. by intros (? & ? & _).
Defined.

Definition is_overdue (now : Time) (t : Task) : Prop :=
  Done t = false ∧ ∃ due, DueDate t = Some due ∧ due < now.

Global Instance is_overdue_dec now t : Decision (is_overdue now t).
Proof.
  unfold is_overdue. destruct (DueDate t) as [due|].
  - destruct (decide (Done t = false)); [|right; tauto].
    destruct (decide (due < now)); [left; eauto|right].
    by intros (_ & ? & [= <-] & ?).
  - right. by intros (_ & ? & ? & _).
Defined.

(** The world after one reading of the clock. *)
Definition tick (w : World) : World :=
  mkWorld (store w) (clock w) (S (reads w)).

Section WithLib.
Context {codec : JSONCodec} {lib : GoLib}.

(** [s.storage.Create(task)], answering the task behind the pointer. *)
Definition create_in_place (task : Task) : Eff World Task := λ w,
  (on_store (Create task);; mret (filled (store w) task)) w.

Definition CreateTask (title : string) (dueDate : option Time) : Eff World Task :=
  if bool_decide (TrimSpace title = "") then
    fail (Errorf "task title cannot be empty")
  else
    id ← generateID;
    createdAt ← Now;
    create_in_place (mkTask id title false createdAt dueDate).

Definition ListTasks (status : string) : Eff World (list Task) :=
  tasks ← on_store GetAll;
  if bool_decide (status = "") then mret tasks
  else mret (by_status status tasks).

Definition GetTask (id : string) : Eff World Task := on_store (GetByID id).

Definition UpdateTask (id title : string) (done : bool) (dueDate : option Time)
  : Eff World Task :=
  task ← on_store (GetByID id);
  let task :=
    if bool_decide (title ≠ "")
    then mkTask (ID task) title (Done task) (CreatedAt task) (DueDate task)
    else task in
  let task := mkTask (ID task) (Title task) done (CreatedAt task) (DueDate task) in
  let task :=
    match dueDate with
    | Some due => mkTask (ID task) (Title task) (Done task) (CreatedAt task) (Some due)
    | None => task
    end in
  on_store (Update task);;
  mret task.

Definition MarkTaskDone (id : string) (done : bool) : Eff World unit :=
  task ← on_store (GetByID id);
  on_store (Update (mkTask (ID task) (Title task) done (CreatedAt task)
                           (DueDate task))).

Definition DeleteTask (id : string) : Eff World unit := on_store (Delete id).

Definition GetDueTasks (days : Z) : Eff World (list Task) :=
  tasks ← on_store GetAll;
  now ← Now;
  let deadline := AddDate now 0 0 days in
  mret (due_by deadline tasks).

(** The answer is [(total, done, overdue)]. *)
Definition GetTasksSummary : Eff World (Z * Z * Z) :=
  tasks ← on_store GetAll;
  let total := Z.of_nat (length tasks) in
  now ← Now;
  let '(done, overdue) := tally now tasks in
  mret (total, done, overdue).

Definition HealthCheck : Eff World unit :=
  on_store (λ st,
    match healthChecker st with
    | Some answer => answer
    | None => (GetAll;; mret ()) st
    end).

End WithLib.
End task.

(** ** A codec to run the file backend on

    A byte-for-byte injective encoding of a task list: the list is numbered
    by its [Countable] code and the number is written in binary, least
    significant bit first.  It stands in for [encoding/json] wherever an
    operation of the file backend is evaluated. *)

Module bits.

Fixpoint of_pos (p : positive) : string :=
  match p with
  | xH => ""
  | xO q => String "0"%char (of_pos q)
  | xI q => String "1"%char (of_pos q)
  end.

Fixpoint to_pos (s : string) : option positive :=
  match s with
  | "" => Some xH
  | String c rest =>
      if Ascii.eqb c "0"%char then xO <$> to_pos rest
      else if Ascii.eqb c "1"%char then xI <$> to_pos rest
      else None
  end.

Definition write (tasks : list Task) : Result string :=
  Ok (of_pos (encode tasks)).

Definition read (data : string) : Result (list Task) :=
  match to_pos data ≫= decode with
  | Some tasks => Ok tasks
  | None => Err ErrSyntax
  end.

Definition codec : JSONCodec.
Proof.
  refine {| Marshal := write; Unmarshal := read; exact := λ _, True |}.
  - intros data tasks _. by apply Forall_forall.
  - intros tasks data _ [= <-]. unfold read.
    assert (∀ p, to_pos (of_pos p) = Some p) as ->.
    { induction p as [q IH|q IH|]; simpl; [by rewrite IH..|done]. }
    simpl. by rewrite decode_encode.
Defined.

End bits.


(** ** Stores and records to run the operations on *)

Module examples.
Import storage.

(** A file system with no file and no fault. *)
Definition calm : os.World :=
  os.mkWorld ∅ (λ _, false) (λ _, None) (λ _ _, false).

Definition js : JSONStorage.t := JSONStorage.mk "tasks.json".

Definition milk : Task := mkTask "t1" "Buy milk" false 1000000 None.
Definition bread : Task :=
  mkTask "t2" "Buy bread" false 2000999 (Some 5000500).

(** The five backends, empty; the engines keep milliseconds of a
    timestamp in nanoseconds, SQLite keeps all of it. *)
Definition millis (t : Time) : Time := t - t `mod` 1000000.

Definition new_file : Storage :=
  JSON js (snd (JSONStorage.NewJSONStorage (codec := bits.codec) "tasks.json" calm)).
Definition new_mongo : Storage :=
  MongoDB (MongoDBStorage.mk "mongodb://localhost:27017" "gotask" "tasks")
          (mongo.mkCollection [] Second false millis).

(** The state a run of operations leaves. *)
Definition after {A} (m : Eff Storage A) (st : Storage) : Storage := snd (m st).

Definition create (t : Task) : Eff Storage unit := Create (codec := bits.codec) t.
Definition delete (id : string) : Eff Storage unit := Delete (codec := bits.codec) id.

(** Constructors that do nothing but record that they were called. *)
Definition recording : factory.Constructors (list string) string :=
  factory.mkConstructors _ _
    (λ path log, (Ok "json", log ++ ["NewJSONStorage"]))
    (λ path log, (Ok "sqlite", log ++ ["NewSQLiteStorage"]))
    (λ config log, (Ok "postgres", log ++ ["NewPostgreSQLStorage"]))
    (λ config log, (Ok "mysql", log ++ ["NewMySQLStorage"]))
    (λ config log, (Ok "mongodb", log ++ ["NewMongoDBStorage"])).

(** A MySQL configuration without a host, and a complete one. *)
Definition mysql_without_host : factory.StorageConfig :=
  factory.mkConfig "mysql" "tasks.json" "" 3306 "gotask_user" "secret" "gotask"
    "disable" "UTC" "utf8mb4" true "Local" "mongodb://localhost:27017" "tasks"
    (10 * Second) (5 * Second).

Definition mysql_complete : factory.StorageConfig :=
  factory.mkConfig "mysql" "tasks.json" "localhost" 3306 "gotask_user" "secret"
    "gotask" "disable" "UTC" "utf8mb4" true "Local" "mongodb://localhost:27017"
    "tasks" (10 * Second) (5 * Second).

(** A MongoDB configuration that asks for thirty seconds per query, one
    that asks for one second, and servers that answer in seven and in
    three seconds. *)
Definition patient : MongoDBStorage.MongoDBConfig :=
  MongoDBStorage.mkConfig "mongodb://localhost:27017" "gotask" "tasks"
    (10 * Second) (30 * Second).

Definition hasty : MongoDBStorage.MongoDBConfig :=
  MongoDBStorage.mkConfig "mongodb://localhost:27017" "gotask" "tasks"
    (10 * Second) (1 * Second).

Definition server (latency : Duration) : mongo.Collection :=
  mongo.mkCollection [] latency false millis.

(** The file system after the file backend was set up and [milk]
    created, and the same with every rename refused. *)
Definition with_milk : os.World :=
  snd (JSONStorage.Create (codec := bits.codec) js milk
         (snd (JSONStorage.NewJSONStorage (codec := bits.codec) "tasks.json" calm))).


(** Stand-ins for the library calls, to run the loader and the service
    on: spaces are trimmed, a number is a run of decimal digits, a
    duration is one of the values used below, and a day has twenty-four
    hours. *)
Fixpoint trim_left (s : string) : string :=
  match s with
  | String " " rest => trim_left rest
  | _ => s
  end.

Definition trim (s : string) : string :=
  String.rev (trim_left (String.rev (trim_left s))).

Fixpoint digits (s : string) (acc : Z) : option Z :=
  match s with
  | "" => Some acc
  | String c rest =>
      let n := Z.of_N (N_of_ascii c) - 48 in
      if (0 <=? n) && (n <=? 9) then digits rest (10 * acc + n) else None
  end.

Definition atoi (s : string) : Result Z :=
  match s with
  | "" => Err ErrSyntax
  | _ => match digits s 0 with
         | Some n => Ok n
         | None => Err ErrSyntax
         end
  end.

Definition seconds (s : string) : Result Duration :=
  if bool_decide (s = "5s") then Ok (5 * Second)
  else if bool_decide (s = "10s") then Ok (10 * Second)
  else if bool_decide (s = "30s") then Ok (30 * Second)
  else Err ErrSyntax.

Definition lib : GoLib :=
  {| TrimSpace := trim;
     Atoi := atoi;
     ParseDuration := seconds;
     AddDate := λ t years months days, t + days * (86400 * Second);
     ParseDuration_10s := eq_refl;
     ParseDuration_5s := eq_refl |}.

(** An environment that selects MySQL and names no user, and the empty
    one. *)
Definition mysql_env : gmap string string :=
  {[ "STORAGE_TYPE" := "mysql"; "DB_HOST" := "db.internal" ]}.

Definition bad_port_env : gmap string string :=
  {[ "STORAGE_TYPE" := "json"; "DB_PORT" := "54x2" ]}.

(** A clock that advances by a microsecond between two readings. *)
Definition ticking : nat → Time := λ n, 1700000000000000000 + Z.of_nat n * 1000.

(** A clock that stands still. *)
Definition stuck : nat → Time := λ _, 1700000000000000000.

Definition serving (st : Storage) (clock : nat → Time) : task.World :=
  task.mkWorld st clock 0.

End examples.

(** * Properties *)

Ltac unfold_eff :=
  unfold mbind, Eff_bind, mret, Eff_ret, lift, fail, wrap, not_found_or_wrap in *.

(** ** Lists of records *)

Section Records.
Implicit Types (id : string) (task : Task) (tasks : list Task).

Lemma has_id_true id task : has_id id task = true ↔ ID task = id.
Proof. unfold has_id. by rewrite bool_decide_eq_true. Qed.

Lemma has_id_false id task : has_id id task = false ↔ ID task ≠ id.
Proof. unfold has_id. by rewrite bool_decide_eq_false. Qed.

Lemma has_id_self task : has_id (ID task) task = true.
Proof. by apply has_id_true. Qed.

Lemma elem_of_ids id tasks : id ∈ ids tasks ↔ ∃ task, task ∈ tasks ∧ ID task = id.
Proof.
  unfold ids. rewrite list_elem_of_fmap.
  split; intros (task & ? & ?); exists task; by split.
Qed.

Lemma find_has_id_None id tasks : find (has_id id) tasks = None ↔ id ∉ ids tasks.
Proof.
  induction tasks as [|task rest IH]; simpl.
  - split; [intros _; apply not_elem_of_nil|done].
  - destruct (has_id id task) eqn:E.
    + apply has_id_true in E. split; [done|]. intros []. rewrite <- E. left.
    + apply has_id_false in E. rewrite IH. split.
      * intros Hn [->|?]%elem_of_cons; [done|auto].
      * intros Hn ?. apply Hn. by right.
Qed.

Lemma find_has_id_Some id tasks task :
  find (has_id id) tasks = Some task → task ∈ tasks ∧ ID task = id.
Proof.
  intros Hf. destruct (find_some _ _ Hf) as [Hin Hid].
  split; [by apply list_elem_of_In|by apply has_id_true].
Qed.

Lemma existsb_has_id id tasks : existsb (has_id id) tasks = true ↔ id ∈ ids tasks.
Proof.
  rewrite existsb_exists, elem_of_ids. split; intros (task & ? & ?); exists task.
  - split; [by apply list_elem_of_In|by apply has_id_true].
  - split; [by apply list_elem_of_In|by apply has_id_true].
Qed.

Lemma existsb_has_id_false id tasks :
  existsb (has_id id) tasks = false ↔ id ∉ ids tasks.
Proof.
  rewrite <- existsb_has_id. destruct (existsb _ _); [split|split; done].
  - done.
  - intros Hn. by destruct Hn.
Qed.

Lemma find_app_fresh id tasks task :
  id ∉ ids tasks → ID task = id → find (has_id id) (tasks ++ [task]) = Some task.
Proof.
  intros Hn Hid. induction tasks as [|x rest IH]; simpl.
  - by rewrite (proj2 (has_id_true id task) Hid).
  - destruct (has_id id x) eqn:E.
    + apply has_id_true in E. destruct Hn. rewrite <- E. left.
    + apply IH. intros ?. apply Hn. by right.
Qed.


Lemma filter_other_ids id tasks :
  id ∉ ids tasks → filter (λ r, ID r ≠ id) tasks = tasks.
Proof.
  induction tasks as [|x rest IH]; [done|]. intros Hn.
  rewrite filter_cons_True.
  - f_equal. apply IH. intros ?. apply Hn. by right.
  - intros E. apply Hn. rewrite <- E. left.
Qed.

Lemma index_of_None id tasks :
  JSONStorage.index_of id tasks = None ↔ id ∉ ids tasks.
Proof.
  induction tasks as [|x rest IH]; simpl.
  - split; [intros _; apply not_elem_of_nil|done].
  - destruct (has_id id x) eqn:E.
    + apply has_id_true in E. split; [done|]. intros []. rewrite <- E. left.
    + apply has_id_false in E.
      destruct (JSONStorage.index_of id rest) as [i|]; simpl.
      * split; [done|]. intros Hn. exfalso.
        assert (id ∉ ids rest) as Hr by (intros ?; apply Hn; by right).
        by apply IH in Hr.
      * split; [|done]. intros _ [->|?]%elem_of_cons; [done|].
        by apply (proj1 IH).
Qed.

(** [index_of] finds the first record with the id, and assigning at that
    index replaces exactly that record. *)
Lemma index_of_Some id tasks i task :
  JSONStorage.index_of id tasks = Some i →
  ∃ l1 x l2, tasks = l1 ++ x :: l2 ∧ ID x = id ∧ (id ∉ ids l1) ∧
    <[i := task]> tasks = l1 ++ task :: l2.
Proof.
  revert i. induction tasks as [|y rest IH]; simpl; [done|]. intros i.
  destruct (has_id id y) eqn:E.
  - intros [= <-]. apply has_id_true in E.
    exists [], y, rest. repeat split; [done|apply not_elem_of_nil].
  - apply has_id_false in E.
    destruct (JSONStorage.index_of id rest) as [j|]; simpl; [|done].
    intros [= <-]. destruct (IH j eq_refl) as (l1 & x & l2 & -> & Hx & Hn & Hi).
    exists (y :: l1), x, l2. repeat split; [done| |simpl; by rewrite Hi].
    intros [?|?]%elem_of_cons; [by apply E|by apply Hn].
Qed.

Lemma delete_loop_spec id tasks filtered found :
  JSONStorage.delete_loop id tasks filtered found =
  (filtered ++ filter (λ r, ID r ≠ id) tasks,
   found || existsb (has_id id) tasks).
Proof.
  revert filtered found. induction tasks as [|x rest IH]; intros filtered found; simpl.
  - by rewrite app_nil_r, orb_false_r.
  - destruct (has_id id x) eqn:E; simpl; rewrite IH.
    + apply has_id_true in E. rewrite filter_cons_False by (by intros ?).
      by rewrite orb_true_r.
    + apply has_id_false in E. rewrite filter_cons_True by done.
      by rewrite <- app_assoc.
Qed.

End Records.

(** ** The file backend *)

Section JSONFacts.
Context {codec : JSONCodec}.
Import os JSONStorage.
Implicit Types (js : JSONStorage.t) (w : World) (task : Task)
  (tasks : list Task) (id : string).


(** [load] reads and never writes. *)
Lemma load_world js w r w' : load js w = (r, w') → w' = w.
Proof.
  unfold load, ReadFile. unfold_eff.
  destruct (read_fault w _); [by intros [= _ <-]|].
  destruct (files w !! _); by intros [= _ <-].
Qed.

Lemma load_Ok js w tasks w' :
  load js w = (Ok tasks, w') ↔
  w' = w ∧ read_fault w (filepath js) = false ∧
  ∃ data, files w !! filepath js = Some data ∧ Unmarshal data = Ok tasks.
Proof.
  unfold load, ReadFile. unfold_eff.
  destruct (read_fault w _); [split; [done|by intros (_ & ? & _)]|].
  destruct (files w !! _) as [data|];
    [|split; [done|by intros (_ & _ & ? & ? & _)]].
  split.
  - intros [= E <-]. eauto 6.
  - intros (-> & _ & data' & [= <-] & ->). done.
Qed.

Lemma load_exact js w tasks w' : load js w = (Ok tasks, w') → Forall exact tasks.
Proof.
  intros (_ & _ & data & _ & Hu)%load_Ok. by eapply Unmarshal_exact.
Qed.

(** The three ways [save] ends: nothing is encoded, the write of the
    temporary file fails, the rename fails, or all three steps succeed. *)
Lemma save_cases js tasks w r w' :
  save js tasks w = (r, w') →
  (∃ e, Marshal tasks = Err e ∧ r = Err e ∧ w' = w) ∨
  (∃ data e w1, Marshal tasks = Ok data ∧
     WriteFile (tempFile js) data w = (Err e, w1) ∧ r = Err e ∧ w' = w1) ∨
  (∃ data e w1, Marshal tasks = Ok data ∧
     WriteFile (tempFile js) data w = (Ok (), w1) ∧
     Rename (tempFile js) (filepath js) w1 = (Err e, w1) ∧ r = Err e ∧ w' = w1) ∨
  (∃ data w1, Marshal tasks = Ok data ∧
     WriteFile (tempFile js) data w = (Ok (), w1) ∧
     Rename (tempFile js) (filepath js) w1 = (Ok (), w') ∧ r = Ok ()).
Proof.
  unfold save. unfold_eff.
  destruct (Marshal tasks) as [data|e]; [|intros [= <- <-]; left; eauto].
  destruct (WriteFile _ data w) as [[[]|e] w1] eqn:Hw.
  - destruct (Rename _ _ w1) as [[[]|e] w2] eqn:Hr; intros [= <- <-].
    + do 3 right. eauto 8.
    + right; right; left. exists data, e, w1.
      assert (w2 = w1) as ->; [|done].
      revert Hr. unfold Rename. destruct (files w1 !! _); [|by intros [= _ <-]].
      destruct (rename_fault _ _ _); [by intros [= _ <-]|done].
  - intros [= <- <-]. right; left. eauto 8.
Qed.


Lemma WriteFile_faults path data w r w1 :
  WriteFile path data w = (r, w1) →
  read_fault w1 = read_fault w ∧ write_fault w1 = write_fault w ∧
  rename_fault w1 = rename_fault w.
Proof.
  unfold WriteFile. destruct (write_fault w _) as [[|written]|]; by intros [= _ <-].
Qed.

(** What a successful [save] leaves: the encoding at the real path, no
    temporary file, every other file as before. *)
Lemma save_Ok js tasks w w' :
  save js tasks w = (Ok (), w') →
  ∃ data, Marshal tasks = Ok data ∧
    files w' = <[filepath js := data]> (delete (tempFile js) (files w)) ∧
    read_fault w' = read_fault w ∧ write_fault w' = write_fault w ∧
    rename_fault w' = rename_fault w.
Proof.
  intros Hs. apply save_cases in Hs
    as [(?&?&?&?)|[(?&?&?&?&?&?&?)|[(?&?&?&?&?&?&?&?)|(data&w1&Hm&Hw&Hr&_)]]];
    try done.
  exists data. split; [done|]. revert Hw Hr. unfold WriteFile, Rename.
  destruct (write_fault w _) as [[|?]|]; try done. intros [= <-]. simpl.
  rewrite lookup_insert_eq. destruct (rename_fault _ _ _); [done|].
  intros [= <-]. simpl. by rewrite delete_insert_eq.
Qed.



(** Reading back what [save] wrote. *)
Lemma load_after_save js tasks w w' :
  Forall exact tasks → read_fault w (filepath js) = false →
  save js tasks w = (Ok (), w') → load js w' = (Ok tasks, w').
Proof.
  intros Hex Hrd Hs. apply load_Ok. split; [done|].
  destruct (save_Ok _ _ _ _ Hs) as (data & Hm & Hf & -> & _). split; [done|].
  exists data. rewrite Hf, lookup_insert_eq. split; [done|].
  by apply Unmarshal_Marshal.
Qed.

(** Every mutating operation is [load], then the change to the list in
    memory, then [save] of the whole list. *)
Lemma mutate_eq js m w :
  mutate js m w =
  (tasks ← load js;
   match mutated m tasks with
   | Some new => save js new
   | None => fail task_not_found
   end) w.
Proof.
  destruct m as [task|task|id]; simpl; unfold Create, Update, Delete; unfold_eff;
    destruct (load js w) as [[tasks|e] w1]; try done.
  - by destruct (index_of (ID task) tasks).
  - by destruct (delete_loop id tasks [] false) as [filtered []].
Qed.

Lemma mutate_cases js m w r w' :
  mutate js m w = (r, w') →
  (∃ e, load js w = (Err e, w) ∧ r = Err e ∧ w' = w) ∨
  (∃ old, load js w = (Ok old, w) ∧ mutated m old = None ∧
     r = Err task_not_found ∧ w' = w) ∨
  (∃ old new, load js w = (Ok old, w) ∧ mutated m old = Some new ∧
     save js new w = (r, w')).
Proof.
  rewrite mutate_eq. unfold_eff.
  destruct (load js w) as [[old|e] w1] eqn:Hl;
    pose proof (load_world _ _ _ _ Hl) as ->.
  - destruct (mutated m old) as [new|] eqn:Hm.
    + intros Hs. right; right. eauto.
    + intros [= <- <-]. right; left. eauto.
  - intros [= <- <-]. left. eauto.
Qed.


(** A mutation that answers with the not-found error has changed
    nothing. *)
Lemma mutate_not_found_world js m w w' :
  mutate js m w = (Err task_not_found, w') → w' = w.
Proof.
  intros Hm. apply mutate_cases in Hm
    as [(e & _ & _ & ->)|[(old & _ & _ & _ & ->)|(old & new & _ & _ & Hs)]];
    [done..|].
  apply save_cases in Hs
    as [(?&?&?&->)|[(?&?&?&?&Hw&?&->)|[(?&?&?&?&_&Hr&?&->)|(?&?&?&?&?&?)]]];
    try done; exfalso; simplify_eq.
  - revert Hw. unfold WriteFile.
    by destruct (write_fault w _) as [[|?]|].
  - revert Hr. unfold Rename. destruct (files _ !! _); [|done].
    by destruct (rename_fault _ _ _).
Qed.

Lemma Update_no_record js w tasks task :
  load js w = (Ok tasks, w) → ID task ∉ ids tasks →
  Update js task w = (Err task_not_found, w).
Proof.
  intros Hl Hn. change (mutate js (MUpdate task) w = (Err task_not_found, w)).
  rewrite mutate_eq. unfold_eff. rewrite Hl. simpl.
  by rewrite (proj2 (index_of_None _ _) Hn).
Qed.

Lemma Delete_no_record js w tasks id :
  load js w = (Ok tasks, w) → id ∉ ids tasks →
  Delete js id w = (Err task_not_found, w).
Proof.
  intros Hl Hn. change (mutate js (MDelete id) w = (Err task_not_found, w)).
  rewrite mutate_eq. unfold_eff. rewrite Hl. simpl.
  rewrite delete_loop_spec. simpl.
  by rewrite (proj2 (existsb_has_id_false _ _) Hn).
Qed.

(** C9.  A failed [Update] or [Delete] of the file backend leaves the
    store alone: when either returns the not-found error, the world after
    the call is the world before it, so nothing was rewritten; and that is
    what either returns when the file loads and no record in it has the
    id. *)
Theorem not_found_leaves_the_store js w :
  (∀ task w', Update js task w = (Err task_not_found, w') → w' = w) ∧
  (∀ id w', Delete js id w = (Err task_not_found, w') → w' = w) ∧
  (∀ tasks task, load js w = (Ok tasks, w) → ID task ∉ ids tasks →
     Update js task w = (Err task_not_found, w)) ∧
  (∀ tasks id, load js w = (Ok tasks, w) → id ∉ ids tasks →
     Delete js id w = (Err task_not_found, w)).
Proof.
  split; [intros task; apply (mutate_not_found_world js (MUpdate task))|].
  split; [intros id; apply (mutate_not_found_world js (MDelete id))|].
  split; [apply Update_no_record|apply Delete_no_record].
Qed.

(** What each mutation hands to [save], on the list it loaded. *)
Lemma mutated_shape m old new :
  mutated m old = Some new →
  filter (λ r, ID r ≠ target m) new = filter (λ r, ID r ≠ target m) old ∧
  match m with
  | MCreate task => new = old ++ [task]
  | MUpdate task =>
      ∃ l1 x l2, old = l1 ++ x :: l2 ∧ ID x = ID task ∧ (ID task ∉ ids l1) ∧
        new = l1 ++ task :: l2
  | MDelete id => new = filter (λ r, ID r ≠ id) old
  end.
Proof.
  destruct m as [task|task|id]; simpl.
  - intros [= <-]. split; [|done].
    rewrite filter_app, filter_cons_False by (by intros ?).
    by rewrite filter_nil, app_nil_r.
  - destruct (index_of (ID task) old) as [i|] eqn:Hi; simpl; [|done].
    intros [= <-].
    destruct (index_of_Some _ _ _ task Hi) as (l1 & x & l2 & -> & Hx & Hn & ->).
    split; [|by exists l1, x, l2].
    rewrite !filter_app, !filter_cons_False; [done|by intros ?..].
  - rewrite delete_loop_spec. simpl.
    destruct (existsb (has_id id) old); [|done]. intros [= <-].
    split; [|done]. by rewrite list_filter_filter_l.
Qed.

(** The list a successful mutation leaves in the file, read back. *)
Lemma mutate_reload js m w w' old :
  brings_exact m →
  load js w = (Ok old, w) →
  mutate js m w = (Ok (), w') →
  ∃ new,
    load js w' = (Ok new, w') ∧
    filter (λ r, ID r ≠ target m) new = filter (λ r, ID r ≠ target m) old ∧
    match m with
    | MCreate task => new = old ++ [task]
    | MUpdate task =>
        ∃ l1 x l2, old = l1 ++ x :: l2 ∧ ID x = ID task ∧ (ID task ∉ ids l1) ∧
          new = l1 ++ task :: l2
    | MDelete id => new = filter (λ r, ID r ≠ id) old
    end.
Proof.
  intros Hex Hl Hm.
  apply mutate_cases in Hm
    as [(e & _ & ? & _)|[(old' & _ & _ & ? & _)|(old' & new & Hl' & Hn & Hs)]];
    [done..|].
  assert (old' = old) as -> by congruence.
  pose proof (load_exact _ _ _ _ Hl) as Hold.
  destruct (mutated_shape _ _ _ Hn) as [Hfr Hsh].
  exists new. split; [|done].
  apply (load_after_save js new w w'); [|by apply load_Ok in Hl as (_ & ? & _)|done].
  destruct m as [task|task|id]; simpl in *.
  - subst new. apply Forall_app. split; [done|by apply Forall_singleton].
  - destruct Hsh as (l1 & x & l2 & -> & _ & _ & ->).
    apply Forall_app in Hold as [H1 [_ H2]%Forall_cons].
    apply Forall_app. split; [done|by apply Forall_cons].
  - subst new. apply Forall_forall. intros r [_ Hr]%list_elem_of_filter.
    by apply (proj1 (Forall_forall _ _) Hold).
Qed.


End JSONFacts.

(** ** Rows and documents *)

Section Tables.
Import sql.
Implicit Types (id : string) (task row : Task) (rs : list Task).

Lemma matching_find id rs : head (matching id rs) = find (has_id id) rs.
Proof.
  unfold matching. induction rs as [|r rest IH]; [done|]. simpl.
  destruct (has_id id r) eqn:E.
  - by rewrite filter_cons_True.
  - rewrite filter_cons_False; [done|]. by rewrite E.
Qed.

Lemma matching_nil id rs : matching id rs = [] ↔ id ∉ ids rs.
Proof.
  rewrite <- find_has_id_None, <- matching_find.
  by destruct (matching id rs).
Qed.

Lemma affected_zero id rs : (affected id rs =? 0) = true ↔ id ∉ ids rs.
Proof.
  rewrite <- matching_nil. unfold affected.
  destruct (matching id rs); simpl; [done|]. by split.
Qed.


Lemma update_where_app id set l1 l2 :
  update_where id set (l1 ++ l2) = update_where id set l1 ++ update_where id set l2.
Proof. unfold update_where. apply fmap_app. Qed.


Lemma others_absent id rs : id ∉ ids rs → others id rs = rs.
Proof.
  unfold others. induction rs as [|r rest IH]; [done|]. intros Hn.
  rewrite filter_cons_True.
  - f_equal. apply IH. intros ?. apply Hn. by right.
  - apply has_id_false. intros E. apply Hn. rewrite <- E. left.
Qed.

Lemma others_gone id rs : id ∉ ids (others id rs).
Proof.
  unfold others. intros (r & [Hr _]%list_elem_of_filter & E)%elem_of_ids.
  by apply has_id_false in Hr.
Qed.





Lemma remove_first_absent id ds : id ∉ ids ds → mongo.remove_first id ds = ds.
Proof.
  induction ds as [|d rest IH]; [done|]. intros Hn. simpl.
  destruct (has_id id d) eqn:E.
  - apply has_id_true in E. destruct Hn. rewrite <- E. left.
  - f_equal. apply IH. intros ?. apply Hn. by right.
Qed.

Lemma remove_first_gone id ds :
  NoDup (ids ds) → id ∉ ids (mongo.remove_first id ds).
Proof.
  induction ds as [|d rest IH]; simpl; [intros _; apply not_elem_of_nil|].
  intros [Hd Hrest]%NoDup_cons. destruct (has_id id d) eqn:E.
  - apply has_id_true in E. by rewrite <- E.
  - apply has_id_false in E. simpl. intros [?|?]%elem_of_cons; [done|].
    by apply IH.
Qed.




(** [ORDER BY created_at DESC] is a total preorder on rows. *)
Global Instance created_desc_total : Total created_desc.
Proof. intros a b. unfold created_desc. lia. Qed.

Global Instance created_desc_trans : Transitive created_desc.
Proof. intros a b c. unfold created_desc. lia. Qed.

End Tables.

(** ** What each database backend computes *)

Section SQLiteFacts.
Import sql.
Implicit Types (db : DB) (task : Task) (id : string).

Lemma with_rows_same db : with_rows db (rows db) = db.
Proof. by destruct db. Qed.

Lemma sqlite_Create_eq task db :
  SQLiteStorage.Create task db =
  if closed db then (Err ErrClosed, db)
  else if existsb (has_id (ID task)) (rows db) then (Err ErrConstraint, db)
  else (Ok (), with_rows db (rows db ++
          [mkTask (ID task) (Title task) (Done task)
                  (precision db (CreatedAt task)) (precision db <$> DueDate task)])).
Proof.
  unfold SQLiteStorage.Create, Exec. unfold_eff.
  destruct (closed db); [done|]. by destruct (existsb _ _).
Qed.


Lemma sqlite_GetByID_eq id db :
  SQLiteStorage.GetByID id db =
  if closed db then (Err ErrClosed, db)
  else match find (has_id id) (rows db) with
       | Some task => (Ok task, db)
       | None => (Err ErrNoRows, db)
       end.
Proof.
  unfold SQLiteStorage.GetByID, Run. unfold_eff.
  destruct (closed db); [done|]. rewrite <- matching_find.
  by destruct (matching id (rows db)).
Qed.


Lemma sqlite_Delete_eq id db :
  SQLiteStorage.Delete id db =
  if closed db then (Err ErrClosed, db)
  else if existsb (has_id id) (rows db) then
    (Ok (), with_rows db (others id (rows db)))
  else (Err ErrNoRows, db).
Proof.
  unfold SQLiteStorage.Delete, Exec. unfold_eff.
  destruct (closed db); [done|].
  destruct (existsb _ _) eqn:E.
  - apply existsb_has_id in E.
    destruct (affected _ _ =? 0) eqn:Ea; [|done].
    by apply affected_zero in Ea.
  - apply existsb_has_id_false in E.
    rewrite (proj2 (affected_zero _ _) E).
    by rewrite others_absent, with_rows_same.
Qed.

End SQLiteFacts.

Section GormFacts.
Import sql gorm.
Implicit Types (g : gorm.DB) (task : Task) (id : string).

Lemma with_conn_same g : with_conn g (conn g) = g.
Proof. by destruct g. Qed.

Lemma mysql_Create_eq task g :
  MySQLStorage.Create task g =
  if closed (conn g) then (Err (Wrapf "failed to create task" ErrClosed), g)
  else if existsb (has_id (ID task)) (rows (conn g)) then
    (Err (Wrapf "failed to create task" ErrConstraint), g)
  else (Ok (), with_conn g (with_rows (conn g) (rows (conn g) ++
          [mkTask (ID task) (Title task) (Done task)
             (precision (conn g)
                (if CreatedAt task =? zeroTime then now g else CreatedAt task))
             (precision (conn g) <$> DueDate task)]))).
Proof.
  unfold MySQLStorage.Create, gorm.Create, on_conn, Exec. unfold_eff.
  destruct (closed (conn g)); [by rewrite with_conn_same|].
  destruct (existsb _ _); [by rewrite with_conn_same|done].
Qed.


Lemma mysql_GetByID_eq id g :
  MySQLStorage.GetByID id g =
  if closed (conn g) then (Err (Wrapf "failed to get task by ID" ErrClosed), g)
  else match find (has_id id) (rows (conn g)) with
       | Some task => (Ok task, g)
       | None => (Err task_not_found, g)
       end.
Proof.
  unfold MySQLStorage.GetByID, First, on_conn, Run. unfold_eff.
  destruct (closed (conn g)); [by rewrite with_conn_same|].
  rewrite <- matching_find, with_conn_same.
  by destruct (matching id (rows (conn g))).
Qed.


Lemma mysql_Delete_eq id g :
  MySQLStorage.Delete id g =
  if closed (conn g) then (Err (Wrapf "failed to delete task" ErrClosed), g)
  else if existsb (has_id id) (rows (conn g)) then
    (Ok (), with_conn g (with_rows (conn g) (others id (rows (conn g)))))
  else (Err task_not_found, g).
Proof.
  unfold MySQLStorage.Delete, gorm.Delete, on_conn, Exec. unfold_eff.
  destruct (closed (conn g)); [by rewrite with_conn_same|].
  destruct (existsb _ _) eqn:E.
  - apply existsb_has_id in E.
    destruct (affected _ _ =? 0) eqn:Ea; [|done].
    by apply affected_zero in Ea.
  - apply existsb_has_id_false in E.
    rewrite (proj2 (affected_zero _ _) E).
    by rewrite others_absent, with_rows_same, with_conn_same.
Qed.

(** The PostgreSQL backend is the MySQL backend, method for method. *)
Lemma postgres_is_mysql :
  PostgreSQLStorage.Create = MySQLStorage.Create ∧
  PostgreSQLStorage.GetAll = MySQLStorage.GetAll ∧
  PostgreSQLStorage.GetByID = MySQLStorage.GetByID ∧
  PostgreSQLStorage.Update = MySQLStorage.Update ∧
  PostgreSQLStorage.Delete = MySQLStorage.Delete.
Proof. done. Qed.

End GormFacts.

Section MongoFacts.
Import mongo.
Implicit Types (c : Collection) (ms : MongoDBStorage.t) (task : Task) (id : string).

Lemma with_docs_same c : with_docs c (docs c) = c.
Proof. by destruct c. Qed.


Lemma mongo_Create_eq ms task c :
  MongoDBStorage.Create ms task c =
  match refusal (5 * Second) c with
  | Some e => (Err (Wrapf "failed to create task" e), c)
  | None =>
      if existsb (has_id (ID task)) (docs c) then
        (Err (Wrapf "failed to create task" ErrConstraint), c)
      else (Ok (), with_docs c (docs c ++ [stored c task]))
  end.
Proof.
  unfold MongoDBStorage.Create, InsertOne, under. unfold_eff.
  destruct (refusal _ c); [done|]. by destruct (existsb _ _).
Qed.

(** A sort on a key that no document has leaves the documents as they
    are; [created_at] and [due_date] are such keys. *)
Lemma insert_by_missing key descending d sorted :
  (∀ x, date_at key x = None) →
  insert_by key descending d sorted = sorted ++ [d].
Proof.
  intros Hk. induction sorted as [|x rest IH]; [done|]. simpl.
  unfold stays_before. rewrite !Hk. simpl. destruct descending; by rewrite IH.
Qed.

Lemma sort_by_missing key descending ds :
  (∀ x, date_at key x = None) → sort_by key descending ds = ds.
Proof.
  intros Hk. unfold sort_by.
  assert (∀ acc, foldl (λ sorted d, insert_by key descending d sorted) acc ds
                 = acc ++ ds) as H; [|apply H].
  induction ds as [|d ds IH]; intros acc; simpl; [by rewrite app_nil_r|].
  by rewrite IH, insert_by_missing, <- app_assoc.
Qed.

Lemma date_at_created_at d : date_at "created_at" d = None.
Proof. done. Qed.

Lemma date_at_due_date d : date_at "due_date" d = None.
Proof. done. Qed.

Lemma mongo_GetAll_eq ms c :
  MongoDBStorage.GetAll ms c =
  match refusal (10 * Second) c with
  | Some e => (Err (Wrapf "failed to get all tasks" e), c)
  | None => (Ok (docs c), c)
  end.
Proof.
  unfold MongoDBStorage.GetAll, FindSorted, under. unfold_eff.
  rewrite (sort_by_missing _ _ _ date_at_created_at).
  by destruct (refusal _ c).
Qed.

Lemma refusal_not_ErrNoDocuments timeout c : refusal timeout c ≠ Some ErrNoDocuments.
Proof.
  unfold refusal. destruct (disconnected c); [done|]. by destruct (_ <? _).
Qed.

Lemma mongo_GetByID_eq ms id c :
  MongoDBStorage.GetByID ms id c =
  match refusal (5 * Second) c with
  | Some e => (Err (Wrapf "failed to get task by ID" e), c)
  | None =>
      match find (has_id id) (docs c) with
      | Some task => (Ok task, c)
      | None => (Err task_not_found, c)
      end
  end.
Proof.
  unfold MongoDBStorage.GetByID, FindOne, under. unfold_eff.
  pose proof (refusal_not_ErrNoDocuments (5 * Second) c) as Hr.
  destruct (refusal _ c) as [e|].
  - rewrite bool_decide_eq_false_2; [done|]. intros ->. by apply Hr.
  - by destruct (find _ _).
Qed.

Lemma mongo_Update_eq ms task c :
  MongoDBStorage.Update ms task c =
  match refusal (5 * Second) c with
  | Some e => (Err (Wrapf "failed to update task" e), c)
  | None =>
      if existsb (has_id (ID task)) (docs c) then
        (Ok (), with_docs c (set_first (ID task) (stored c task) (docs c)))
      else (Err task_not_found, c)
  end.
Proof.
  unfold MongoDBStorage.Update, UpdateOne, under. unfold_eff.
  destruct (refusal _ c); [done|]. by destruct (existsb _ _).
Qed.

Lemma mongo_Delete_eq ms id c :
  MongoDBStorage.Delete ms id c =
  match refusal (5 * Second) c with
  | Some e => (Err (Wrapf "failed to delete task" e), c)
  | None =>
      if existsb (has_id id) (docs c) then
        (Ok (), with_docs c (remove_first id (docs c)))
      else (Err task_not_found, c)
  end.
Proof.
  unfold MongoDBStorage.Delete, DeleteOne, under. unfold_eff.
  destruct (refusal _ c); [done|]. by destruct (existsb _ _).
Qed.

End MongoFacts.

(** ** The five backends behind the interface *)

Section StorageFacts.
Context {codec : JSONCodec}.
Import storage.
Implicit Types (st : Storage) (task t : Task) (id : string).

Lemma json_GetByID_loaded js id w tasks :
  JSONStorage.load js w = (Ok tasks, w) →
  JSONStorage.GetByID js id w =
  match find (has_id id) tasks with
  | Some task => (Ok task, w)
  | None => (Err task_not_found, w)
  end.
Proof.
  intros Hl. unfold JSONStorage.GetByID. unfold_eff. rewrite Hl.
  by destruct (find _ _).
Qed.

Lemma json_Create_loaded js task w w' :
  JSONStorage.Create js task w = (Ok (), w') →
  ∃ old, JSONStorage.load js w = (Ok old, w).
Proof.
  intros Hc. apply (mutate_cases js (JSONStorage.MCreate task)) in Hc
    as [(e & _ & ? & _)|[(old & _ & _ & ? & _)|(old & new & Hl & _ & _)]];
    [done..|]. eauto.
Qed.

Lemma kept_file js w task : kept (JSON js w) task = task.
Proof. by destruct task as [? ? ? ? [?|]]. Qed.

Lemma through_eq {S A} (inj : S → Storage) (m : Eff S A) s r st' :
  through inj m s = (r, st') ↔ ∃ s', m s = (r, s') ∧ st' = inj s'.
Proof.
  unfold through. destruct (m s) as [r0 s0]. split.
  - intros [= <- <-]. eauto.
  - by intros (s' & [= <- <-] & ->).
Qed.

(** C2.  On every backend, for a record the backend stores as given and
    whose id is not stored, a successful [Create] is followed by a
    [GetByID] of the id that succeeds and answers with the record: same
    id, title and done flag, [CreatedAt] and [DueDate] at the precision of
    the backend, a [DueDate] present exactly when it was given.  On the
    file backend the answer is the record itself. *)
Theorem create_then_get st st' t :
  valid st t →
  absent (ID t) st →
  Create t st = (Ok (), st') →
  GetByID (ID t) st' = (Ok (kept st t), st') ∧
  (is_file st = true → kept st t = t).
Proof.
  intros Hv (e & Ha & He) Hc.
  destruct st as [js w|db|g|g|ms c]; simpl in *.
  - apply through_eq in Hc as (w' & Hc & ->).
    apply through_eq in Ha as (w0 & Ha & [= <-]).
    destruct (json_Create_loaded _ _ _ _ Hc) as (old & Hl).
    rewrite (json_GetByID_loaded _ _ _ _ Hl) in Ha.
    destruct (find (has_id (ID t)) old) eqn:Hf; [done|].
    apply find_has_id_None in Hf.
    destruct (mutate_reload js (JSONStorage.MCreate t) w w' old)
      as (new & Hl' & _ & ->); [done..|].
    split; [|intros _; apply kept_file].
    apply through_eq. exists w'. split; [|done].
    rewrite (json_GetByID_loaded _ _ _ _ Hl'), find_app_fresh by done.
    by rewrite kept_file.
  - split; [|done]. apply through_eq in Hc as (db' & Hc & ->).
    rewrite sqlite_Create_eq in Hc.
    destruct (sql.closed db) eqn:Hcl; [done|].
    destruct (existsb _ _) eqn:Hex; [done|]. injection Hc as <-.
    apply existsb_has_id_false in Hex.
    apply through_eq. eexists. split; [|done].
    rewrite sqlite_GetByID_eq. simpl. rewrite Hcl.
    by rewrite find_app_fresh.
  - split; [|done]. apply through_eq in Hc as (g' & Hc & ->).
    change PostgreSQLStorage.Create with MySQLStorage.Create in Hc.
    rewrite mysql_Create_eq in Hc.
    destruct (sql.closed (gorm.conn g)) eqn:Hcl; [done|].
    destruct (existsb _ _) eqn:Hex; [done|]. injection Hc as <-.
    apply existsb_has_id_false in Hex.
    apply through_eq. eexists. split; [|done].
    change PostgreSQLStorage.GetByID with MySQLStorage.GetByID.
    rewrite mysql_GetByID_eq. simpl. rewrite Hcl.
    rewrite find_app_fresh by done.
    by rewrite (proj2 (Z.eqb_neq _ _) Hv).
  - split; [|done]. apply through_eq in Hc as (g' & Hc & ->).
    rewrite mysql_Create_eq in Hc.
    destruct (sql.closed (gorm.conn g)) eqn:Hcl; [done|].
    destruct (existsb _ _) eqn:Hex; [done|]. injection Hc as <-.
    apply existsb_has_id_false in Hex.
    apply through_eq. eexists. split; [|done].
    rewrite mysql_GetByID_eq. simpl. rewrite Hcl.
    rewrite find_app_fresh by done.
    by rewrite (proj2 (Z.eqb_neq _ _) Hv).
  - split; [|done]. apply through_eq in Hc as (c' & Hc & ->).
    rewrite mongo_Create_eq in Hc.
    destruct (mongo.refusal _ c) eqn:Hr; [done|].
    destruct (existsb _ _) eqn:Hex; [done|]. injection Hc as <-.
    apply existsb_has_id_false in Hex.
    apply through_eq. eexists. split; [|done].
    rewrite mongo_GetByID_eq.
    assert (mongo.refusal (5 * Second) (mongo.with_docs c
              (mongo.docs c ++ [mongo.stored c t])) = None) as -> by done.
    simpl. by rewrite find_app_fresh.
Qed.

Lemma absent_file js w id :
  absent id (JSON js w) ↔
  (∃ e, JSONStorage.load js w = (Err e, w) ∧ IsNotFound e = true) ∨
  (∃ tasks, JSONStorage.load js w = (Ok tasks, w) ∧ id ∉ ids tasks).
Proof.
  unfold absent. simpl. split.
  - intros (e & (w' & Hg & [= <-])%through_eq & He).
    destruct (JSONStorage.load js w) as [[tasks|e'] w1] eqn:Hl;
      pose proof (load_world _ _ _ _ Hl) as ->.
    + right. exists tasks. split; [done|].
      rewrite (json_GetByID_loaded _ _ _ _ Hl) in Hg.
      destruct (find _ _) eqn:Hf; [done|]. by apply find_has_id_None.
    + left. exists e'. split; [done|].
      revert Hg. unfold JSONStorage.GetByID. unfold_eff. rewrite Hl.
      by intros [= <-].
  - intros [(e & Hl & He)|(tasks & Hl & Hn)].
    + exists e. split; [|done]. apply through_eq. exists w. split; [|done].
      unfold JSONStorage.GetByID. unfold_eff. by rewrite Hl.
    + exists task_not_found. split; [|done]. apply through_eq. exists w.
      split; [|done]. rewrite (json_GetByID_loaded _ _ _ _ Hl).
      by rewrite (proj2 (find_has_id_None _ _) Hn).
Qed.

Lemma absent_sqlite db id :
  absent id (SQLite db) ↔ sql.closed db = false ∧ id ∉ ids (sql.rows db).
Proof.
  unfold absent. simpl. split.
  - intros (e & (db' & Hg & _)%through_eq & He). rewrite sqlite_GetByID_eq in Hg.
    destruct (sql.closed db); [by simplify_eq|]. split; [done|].
    destruct (find _ _) eqn:Hf; [done|]. by apply find_has_id_None.
  - intros [Hc Hn]. exists ErrNoRows. split; [|done].
    apply through_eq. exists db. split; [|done].
    by rewrite sqlite_GetByID_eq, Hc, (proj2 (find_has_id_None _ _) Hn).
Qed.

Lemma absent_mysql g id :
  absent id (MySQL g) ↔
  sql.closed (gorm.conn g) = false ∧ id ∉ ids (sql.rows (gorm.conn g)).
Proof.
  unfold absent. simpl. split.
  - intros (e & (g' & Hg & _)%through_eq & He). rewrite mysql_GetByID_eq in Hg.
    destruct (sql.closed _); [by simplify_eq|]. split; [done|].
    destruct (find _ _) eqn:Hf; [done|]. by apply find_has_id_None.
  - intros [Hc Hn]. exists task_not_found. split; [|done].
    apply through_eq. exists g. split; [|done].
    by rewrite mysql_GetByID_eq, Hc, (proj2 (find_has_id_None _ _) Hn).
Qed.

Lemma absent_postgres g id :
  absent id (PostgreSQL g) ↔
  sql.closed (gorm.conn g) = false ∧ id ∉ ids (sql.rows (gorm.conn g)).
Proof.
  unfold absent. simpl. change PostgreSQLStorage.GetByID with MySQLStorage.GetByID.
  split.
  - intros (e & (g' & Hg & _)%through_eq & He). rewrite mysql_GetByID_eq in Hg.
    destruct (sql.closed _); [by simplify_eq|]. split; [done|].
    destruct (find _ _) eqn:Hf; [done|]. by apply find_has_id_None.
  - intros [Hc Hn]. exists task_not_found. split; [|done].
    apply through_eq. exists g. split; [|done].
    by rewrite mysql_GetByID_eq, Hc, (proj2 (find_has_id_None _ _) Hn).
Qed.

Lemma absent_mongo ms c id :
  absent id (MongoDB ms c) ↔
  mongo.refusal (5 * Second) c = None ∧ id ∉ ids (mongo.docs c).
Proof.
  unfold absent. simpl. split.
  - intros (e & (c' & Hg & _)%through_eq & He). rewrite mongo_GetByID_eq in Hg.
    destruct (mongo.refusal _ c); [by simplify_eq|]. split; [done|].
    destruct (find _ _) eqn:Hf; [done|]. by apply find_has_id_None.
  - intros [Hc Hn]. exists task_not_found. split; [|done].
    apply through_eq. exists c. split; [|done].
    by rewrite mongo_GetByID_eq, Hc, (proj2 (find_has_id_None _ _) Hn).
Qed.

Lemma json_Delete_loaded js id w w' :
  JSONStorage.Delete js id w = (Ok (), w') →
  ∃ old, JSONStorage.load js w = (Ok old, w).
Proof.
  intros Hc. apply (mutate_cases js (JSONStorage.MDelete id)) in Hc
    as [(e & _ & ? & _)|[(old & _ & _ & ? & _)|(old & new & Hl & _ & _)]];
    [done..|]. eauto.
Qed.

(** C4.  On every backend, with the unique index of the collection in
    place: after a [Delete] of an id succeeds, [GetByID] of that id fails
    with a not-found error and so does a second [Delete]; and [Delete] of
    an id under which nothing is stored fails with a not-found error and
    leaves the backend as it was. *)
Theorem delete_then_not_found st id :
  indexed st →
  (∀ st', Delete id st = (Ok (), st') →
     absent id st' ∧
     ∃ e, Delete id st' = (Err e, st') ∧ IsNotFound e = true) ∧
  (absent id st → ∃ e, Delete id st = (Err e, st) ∧ IsNotFound e = true).
Proof.
  intros Hix. destruct st as [js w|db|g|g|ms c].
  - split.
    + intros st' (w' & Hd & ->)%through_eq.
      destruct (json_Delete_loaded _ _ _ _ Hd) as (old & Hl).
      destruct (mutate_reload js (JSONStorage.MDelete id) w w' old)
        as (new & Hl' & _ & ->); [done..|].
      assert (id ∉ ids (filter (λ r, ID r ≠ id) old)) as Hn.
      { intros (r & [Hr _]%list_elem_of_filter & E)%elem_of_ids. done. }
      split; [apply absent_file; right; eauto|].
      exists task_not_found. split; [|done]. apply through_eq. exists w'.
      split; [|done].
      by apply (Delete_no_record js w' _ id Hl').
    + intros [(e & Hl & He)|(tasks & Hl & Hn)]%absent_file.
      * exists e. split; [|done]. apply through_eq. exists w. split; [|done].
        unfold JSONStorage.Delete. unfold_eff. by rewrite Hl.
      * exists task_not_found. split; [|done]. apply through_eq. exists w.
        split; [|done].
        by apply (Delete_no_record js w _ id Hl).
  - split.
    + intros st' (db' & Hd & ->)%through_eq. rewrite sqlite_Delete_eq in Hd.
      destruct (sql.closed db) eqn:Hc; [done|].
      destruct (existsb _ _); [|done]. injection Hd as <-.
      pose proof (others_gone id (sql.rows db)) as Hn.
      split; [by apply absent_sqlite|].
      exists ErrNoRows. split; [|done]. apply through_eq. eexists. split; [|done].
      rewrite sqlite_Delete_eq. simpl. rewrite Hc.
      by rewrite (proj2 (existsb_has_id_false _ _) Hn).
    + intros [Hc Hn]%absent_sqlite. exists ErrNoRows. split; [|done].
      apply through_eq. exists db. split; [|done].
      by rewrite sqlite_Delete_eq, Hc, (proj2 (existsb_has_id_false _ _) Hn).
  - split.
    + intros st' (g' & Hd & ->)%through_eq.
      change PostgreSQLStorage.Delete with MySQLStorage.Delete in Hd.
      rewrite mysql_Delete_eq in Hd.
      destruct (sql.closed (gorm.conn g)) eqn:Hc; [done|].
      destruct (existsb _ _); [|done]. injection Hd as <-.
      pose proof (others_gone id (sql.rows (gorm.conn g))) as Hn.
      split; [by apply absent_postgres|].
      exists task_not_found. split; [|done]. apply through_eq. eexists.
      split; [|done]. change PostgreSQLStorage.Delete with MySQLStorage.Delete.
      rewrite mysql_Delete_eq. simpl. rewrite Hc.
      by rewrite (proj2 (existsb_has_id_false _ _) Hn).
    + intros [Hc Hn]%absent_postgres. exists task_not_found. split; [|done].
      apply through_eq. exists g. split; [|done].
      change PostgreSQLStorage.Delete with MySQLStorage.Delete.
      by rewrite mysql_Delete_eq, Hc, (proj2 (existsb_has_id_false _ _) Hn).
  - split.
    + intros st' (g' & Hd & ->)%through_eq. rewrite mysql_Delete_eq in Hd.
      destruct (sql.closed (gorm.conn g)) eqn:Hc; [done|].
      destruct (existsb _ _); [|done]. injection Hd as <-.
      pose proof (others_gone id (sql.rows (gorm.conn g))) as Hn.
      split; [by apply absent_mysql|].
      exists task_not_found. split; [|done]. apply through_eq. eexists.
      split; [|done]. rewrite mysql_Delete_eq. simpl. rewrite Hc.
      by rewrite (proj2 (existsb_has_id_false _ _) Hn).
    + intros [Hc Hn]%absent_mysql. exists task_not_found. split; [|done].
      apply through_eq. exists g. split; [|done].
      by rewrite mysql_Delete_eq, Hc, (proj2 (existsb_has_id_false _ _) Hn).
  - simpl in Hix. split.
    + intros st' (c' & Hd & ->)%through_eq. rewrite mongo_Delete_eq in Hd.
      destruct (mongo.refusal _ c) eqn:Hc; [done|].
      destruct (existsb _ _); [|done]. injection Hd as <-.
      pose proof (remove_first_gone id _ Hix) as Hn.
      split; [by apply absent_mongo|].
      exists task_not_found. split; [|done]. apply through_eq. eexists.
      split; [|done]. rewrite mongo_Delete_eq.
      assert (mongo.refusal (5 * Second) (mongo.with_docs c
                (mongo.remove_first id (mongo.docs c))) = None) as -> by done.
      simpl. by rewrite (proj2 (existsb_has_id_false _ _) Hn).
    + intros [Hc Hn]%absent_mongo. exists task_not_found. split; [|done].
      apply through_eq. exists c. split; [|done].
      by rewrite mongo_Delete_eq, Hc, (proj2 (existsb_has_id_false _ _) Hn).
Qed.





















End StorageFacts.

(** ** The factory *)

Section FactoryFacts.
Import factory.
Context {W S : Type} (new : Constructors W S).
Implicit Types (config : StorageConfig).

(** [ValidateConfig] accepts a configuration exactly when the fields its
    kind requires are there. *)
Lemma ValidateConfig_None config :
  ValidateConfig config = None ↔ required_fields_present config.
Proof.
  unfold ValidateConfig, required_fields_present,
    StorageTypeJSON, StorageTypeSQLite, StorageTypePostgreSQL,
    StorageTypeMySQL, StorageTypeMongoDB.
  destruct (Z.leb_spec (Port config) 0);
    repeat (case_bool_decide; simpl); split; try done;
    try (intros _; auto 10; fail);
    intros [[[|] ?]|[[[|] (?&?&?&?)]|(?&?&?&?)]]; try done; try congruence; lia.
Qed.

(** [NewStorage] hands the configuration of a supported kind to the
    constructor of that kind, whatever the fields hold. *)
Lemma NewStorage_dispatch config :
  (Type_ config = StorageTypeJSON →
   NewStorage new config = NewJSONStorage new (FilePath config)) ∧
  (Type_ config = StorageTypeSQLite →
   NewStorage new config = NewSQLiteStorage new (FilePath config)) ∧
  (Type_ config = StorageTypePostgreSQL →
   NewStorage new config = NewPostgreSQLStorage new (pgConfig config)) ∧
  (Type_ config = StorageTypeMySQL →
   NewStorage new config = NewMySQLStorage new (mysqlConfig config)) ∧
  (Type_ config = StorageTypeMongoDB →
   NewStorage new config = NewMongoDBStorage new (mongoConfig config)).
Proof.
  unfold NewStorage. repeat split; intros ->; done.
Qed.

(** C7.  [ValidateConfig] checks the fields each kind of backend
    requires: a file path for the file-based kinds; host, user, database
    name and a positive port for the relational kinds; URI, database name
    and collection name for the document kind.  [NewStorage] does not
    validate: it hands the configuration of a supported kind to the
    constructor of that kind.  It is [initializeStorage] of the server that
    validates first and, when the validation fails, answers with that
    error without calling a constructor or touching the world; when the
    validation passes it answers with what [NewStorage] answers. *)
Theorem validation_comes_from_the_caller config :
  (ValidateConfig config = None ↔ required_fields_present config) ∧
  ((Type_ config = StorageTypeJSON →
    NewStorage new config = NewJSONStorage new (FilePath config)) ∧
   (Type_ config = StorageTypeSQLite →
    NewStorage new config = NewSQLiteStorage new (FilePath config)) ∧
   (Type_ config = StorageTypePostgreSQL →
    NewStorage new config = NewPostgreSQLStorage new (pgConfig config)) ∧
   (Type_ config = StorageTypeMySQL →
    NewStorage new config = NewMySQLStorage new (mysqlConfig config)) ∧
   (Type_ config = StorageTypeMongoDB →
    NewStorage new config = NewMongoDBStorage new (mongoConfig config))) ∧
  (∀ err w, ValidateConfig config = Some err →
     initializeStorage new config w =
     (Err (Wrapf "invalid storage configuration" err), w)) ∧
  (ValidateConfig config = None →
     initializeStorage new config =
     wrap "failed to create storage" (NewStorage new config)).
Proof.
  split; [apply ValidateConfig_None|]. split; [apply NewStorage_dispatch|].
  unfold initializeStorage. split.
  - by intros err w ->.
  - by intros ->.
Qed.

End FactoryFacts.

(** ** The timeouts of the document backend *)

Section MongoTimeouts.
Import MongoDBStorage examples.

(** Every method of the document backend runs under a deadline written
    in the method, five seconds, ten for [GetAll]; the storage built from
    a configuration does not carry its [QueryTimeout]. *)
Lemma mongo_deadlines ms task id c :
  mongo.disconnected c = false →
  (5 * Second < mongo.latency c →
   Create ms task c = (Err (Wrapf "failed to create task" ErrDeadlineExceeded), c) ∧
   GetByID ms id c = (Err (Wrapf "failed to get task by ID" ErrDeadlineExceeded), c) ∧
   Update ms task c = (Err (Wrapf "failed to update task" ErrDeadlineExceeded), c) ∧
   Delete ms id c = (Err (Wrapf "failed to delete task" ErrDeadlineExceeded), c)) ∧
  (10 * Second < mongo.latency c →
   GetAll ms c = (Err (Wrapf "failed to get all tasks" ErrDeadlineExceeded), c)) ∧
  (mongo.latency c ≤ 5 * Second →
   mongo.refusal (5 * Second) c = None ∧ mongo.refusal (10 * Second) c = None).
Proof.
  intros Hd. unfold mongo.refusal at 1 2. rewrite Hd.
  split; [|split].
  - intros Hl. rewrite mongo_Create_eq, mongo_GetByID_eq, mongo_Update_eq,
      mongo_Delete_eq. unfold mongo.refusal. rewrite Hd.
    by rewrite (proj2 (Z.ltb_lt _ _) Hl).
  - intros Hl. rewrite mongo_GetAll_eq. unfold mongo.refusal. rewrite Hd.
    by rewrite (proj2 (Z.ltb_lt _ _) Hl).
  - intros Hl. rewrite !(proj2 (Z.ltb_ge _ _)); [done|unfold Second in *; lia|done].
Qed.

(** C8.  The document backend does not bound its operations with the
    configured query timeout.  Built from a configuration that allows
    thirty seconds per query, on a server that answers in seven, [Create]
    fails on the deadline of five seconds written in the method; built
    from one that allows a single second, on a server that answers in
    three, [Create] succeeds, [GetAll] too, under its own deadline of ten
    seconds. *)
Theorem query_timeout_is_not_applied :
  (∃ ms, NewMongoDBStorage patient (server (7 * Second)) =
           (Ok ms, server (7 * Second)) ∧
         QueryTimeout patient = 30 * Second ∧
         Create ms milk (server (7 * Second)) =
           (Err (Wrapf "failed to create task" ErrDeadlineExceeded),
            server (7 * Second))) ∧
  (∃ ms c, NewMongoDBStorage hasty (server (3 * Second)) =
             (Ok ms, server (3 * Second)) ∧
           QueryTimeout hasty = 1 * Second ∧
           Create ms milk (server (3 * Second)) = (Ok (), c) ∧
           GetAll ms c = (Ok [mongo.stored c milk], c)).
Proof.
  split.
  - exists (mk (URI patient) (Database patient) (Collection patient)).
    repeat split; reflexivity.
  - exists (mk (URI hasty) (Database hasty) (Collection hasty)),
      (mongo.with_docs (server (3 * Second))
         [mongo.stored (server (3 * Second)) milk]).
    repeat split; reflexivity.
Qed.

End MongoTimeouts.

(** ** Runs on concrete stores *)

Section Runs.
Import storage examples.
Local Existing Instance bits.codec.




(** Against C7 as worded: [NewStorage] on a MySQL configuration without
    a host calls the MySQL constructor. *)
Lemma NewStorage_constructs_without_validating :
  ¬ factory.validates_before_constructing recording mysql_without_host [].
Proof.
  intros Hval.
  destruct (Hval (Errorf "host is required for mysql storage") eq_refl)
    as (e & He).
  vm_compute in He. discriminate He.
Qed.


(** C2 on the file backend and on the MongoDB backend. *)
Lemma create_then_get_witness :
  (GetByID (ID milk) (after (create milk) new_file)
     = (Ok (kept new_file milk), after (create milk) new_file) ∧
   (is_file new_file = true → kept new_file milk = milk)) ∧
  (GetByID (ID bread) (after (create bread) new_mongo)
     = (Ok (kept new_mongo bread), after (create bread) new_mongo) ∧
   (is_file new_mongo = true → kept new_mongo bread = bread)).
Proof.
  split.
  - apply (create_then_get new_file (after (create milk) new_file) milk);
      [exact I| |vm_compute; reflexivity].
    exists task_not_found. split; vm_compute; reflexivity.
  - apply (create_then_get new_mongo (after (create bread) new_mongo) bread);
      [exact I| |reflexivity].
    exists task_not_found. split; reflexivity.
Defined.


(** C4 on the MongoDB backend. *)
Lemma delete_then_not_found_witness :
  absent "t1" (after (delete "t1") (after (create milk) new_mongo)) ∧
  ∃ e, Delete "t1" (after (delete "t1") (after (create milk) new_mongo))
         = (Err e, after (delete "t1") (after (create milk) new_mongo)) ∧
       IsNotFound e = true.
Proof.
  apply (proj1 (delete_then_not_found (after (create milk) new_mongo) "t1"
    (NoDup_singleton "t1"))
    (after (delete "t1") (after (create milk) new_mongo))).
  reflexivity.
Defined.


End Runs.

Section FileRuns.
Import os JSONStorage examples.
Local Existing Instance bits.codec.


(** C9 on an update and a delete of an id the file does not hold. *)
Lemma not_found_leaves_the_store_witness :
  snd (Update js bread with_milk) = with_milk ∧
  Update js bread with_milk = (Err task_not_found, with_milk) ∧
  Delete js "t2" with_milk = (Err task_not_found, with_milk).
Proof.
  destruct (not_found_leaves_the_store js with_milk) as (Hu & _ & Hu' & Hd').
  split; [|split].
  - apply (Hu bread). vm_compute; reflexivity.
  - apply (Hu' [milk]); [vm_compute; reflexivity|].
    vm_compute. by intros ?%list_elem_of_singleton.
  - apply (Hd' [milk]); [vm_compute; reflexivity|].
    vm_compute. by intros ?%list_elem_of_singleton.
Defined.


End FileRuns.

Section FactoryRuns.
Import factory examples.

(** C7 on a MySQL configuration without a host. *)
Lemma validation_comes_from_the_caller_witness :
  initializeStorage recording mysql_without_host []
    = (Err (Wrapf "invalid storage configuration"
              (Errorf "host is required for mysql storage")), []) ∧
  NewStorage recording mysql_without_host
    = NewMySQLStorage recording (mysqlConfig mysql_without_host) ∧
  required_fields_present mysql_complete.
Proof.
  destruct (validation_comes_from_the_caller recording mysql_without_host)
    as (_ & (_ & _ & _ & Hmy & _) & Hinit & _).
  split; [|split].
  - apply Hinit. reflexivity.
  - apply Hmy. reflexivity.
  - apply (proj1 (validation_comes_from_the_caller recording mysql_complete)).
    reflexivity.
Defined.

End FactoryRuns.
